(** * Syam's Search Assistant: source extraction and conversation store

    A shallow embedding of [main.py]: the regular-expression based
    [extract_sources] function and the page script that drives the
    conversation store held in [st.session_state].

    Texts are values of [string]; a character of the text is a code point
    in the range 0..255, which is what [ascii] holds.  On that range
    Python's [str.lower], [re] character classes and the [in] operator act
    exactly as the definitions below say. *)

From Stdlib Require Import String Ascii List Bool Arith Lia.
Import ListNotations.
Open Scope string_scope.

(** ** Python string primitives *)

Module Py.

(** [lo <= c <= hi] on code points, as a regex range [lo-hi] reads. *)
Definition in_range (lo hi c : ascii) : bool :=
  ((lo <=? c) && (c <=? hi))%char.

(** [str.lower] on one code point below 256: the ASCII capitals and the
    Latin-1 capitals U+00C0..U+00DE (U+00D7, the multiplication sign,
    apart) move up by 32; every other code point is unchanged. *)
Definition lower_char (c : ascii) : ascii :=
  if in_range "A" "Z" c then ascii_of_nat (nat_of_ascii c + 32)
  else if in_range (ascii_of_nat 192) (ascii_of_nat 222) c
          && negb (c =? ascii_of_nat 215)%char
       then ascii_of_nat (nat_of_ascii c + 32)
       else c.

Fixpoint lower (s : string) : string :=
  match s with
  | EmptyString => EmptyString
  | String c r => String (lower_char c) (lower r)
  end.

(** [needle in hay]: [needle] starts at some position of [hay]. *)
Fixpoint contains (needle hay : string) : bool :=
  prefix needle hay
  || match hay with
     | EmptyString => false
     | String _ r => contains needle r
     end.

(** [any(p(x) for x in l)] *)
Definition any {A : Type} (p : A -> bool) (l : list A) : bool := existsb p l.

End Py.

(** ** The URL pattern

    [http[s]?://(?:[a-zA-Z]|[0-9]|[$-_@.&+]|[!*\\(\\),]|(?:%[0-9a-fA-F][0-9a-fA-F]))+]
    (a raw string, so [\\] inside a class is one backslash). *)

Module UrlPattern.
Import Py.

(** [[a-zA-Z]] *)
Definition class_letter (c : ascii) : bool :=
  in_range "a" "z" c || in_range "A" "Z" c.

(** [[0-9]] *)
Definition class_digit (c : ascii) : bool := in_range "0" "9" c.

(** [[$-_@.&+]]: the range from [$] to [_], and four single characters. *)
Definition class_dollar (c : ascii) : bool :=
  in_range "$" "_" c
  || (c =? "@")%char || (c =? ".")%char || (c =? "&")%char || (c =? "+")%char.

(** [[!*\\(\\),]] *)
Definition class_bang (c : ascii) : bool :=
  (c =? "!")%char || (c =? "*")%char || (c =? "\")%char
  || (c =? "(")%char || (c =? ")")%char || (c =? ",")%char.

(** [[0-9a-fA-F]] *)
Definition class_hex (c : ascii) : bool :=
  in_range "0" "9" c || in_range "a" "f" c || in_range "A" "F" c.

(** The four one-character alternatives of the group, in order. *)
Definition url_char (c : ascii) : bool :=
  class_letter c || class_digit c || class_dollar c || class_bang c.

(** [(?: ... )+] without the lower bound: the text consumed by the
    repetition, alternatives tried left to right at every round, the
    escape [%XX] last.  Nothing follows the group in the pattern, so the
    matcher never comes back on a choice. *)
Fixpoint url_body (s : string) : string :=
  match s with
  | EmptyString => EmptyString
  | String c r =>
      if url_char c then String c (url_body r)
      else if (c =? "%")%char then
        match r with
        | String h1 (String h2 r') =>
            if class_hex h1 && class_hex h2
            then String c (String h1 (String h2 (url_body r')))
            else EmptyString
        | _ => EmptyString
        end
      else EmptyString
  end.

(** A literal of the pattern at the start of [s]: what is left of [s]
    after it, when [s] starts with it. *)
Fixpoint literal (lit s : string) : option string :=
  match lit with
  | EmptyString => Some s
  | String a lit' =>
      match s with
      | String c r => if (a =? c)%char then literal lit' r else None
      | EmptyString => None
      end
  end.

(** [://] and the group repeated at least once; [scheme] is what was
    matched so far. *)
Definition match_rest (scheme s : string) : option string :=
  match literal "://" s with
  | Some r =>
      match url_body r with
      | EmptyString => None
      | body => Some (scheme ++ "://" ++ body)
      end
  | None => None
  end.

(** The pattern tried at the start of [s]: [http], then [[s]?] greedy
    (with one [s] first, without it when that fails), then the rest. *)
Definition match_url (s : string) : option string :=
  match literal "http" s with
  | Some r =>
      let with_s :=
        match literal "s" r with
        | Some r' => match_rest "https" r'
        | None => None
        end in
      match with_s with
      | Some u => Some u
      | None => match_rest "http" r
      end
  | None => None
  end.

(** [re.findall(url_pattern, s)]: the matches from left to right, none
    overlapping.  [skip] counts the characters of the last match that the
    scan still has to step over. *)
Fixpoint findall_from (skip : nat) (s : string) : list string :=
  match s with
  | EmptyString => []
  | String _ r =>
      match skip with
      | S k => findall_from k r
      | O =>
          match match_url s with
          | Some u => u :: findall_from (pred (String.length u)) r
          | None => findall_from 0 r
          end
      end
  end.

Definition findall (s : string) : list string := findall_from 0 s.

End UrlPattern.

(** ** Source records and [extract_sources] *)

(** A source is a dict with the keys ["title"], ["url"] and ["type"]; the
    page reads ["url"] with [.get], so the key may be absent. *)
Record Source : Type := mkSource {
  title : string;
  url : option string;
  type : string
}.

Definition arxiv_repository : Source :=
  {| title := "arXiv Repository"; url := Some "https://arxiv.org"; type := "academic" |}.

Definition wikipedia_home : Source :=
  {| title := "Wikipedia"; url := Some "https://wikipedia.org"; type := "encyclopedia" |}.

(** The body of [for url in urls]: one [sources.append]. *)
Definition categorize (sources : list Source) (u : string) : list Source :=
  if Py.contains "arxiv.org" u then
    (sources ++ [{| title := "arXiv Academic Paper"; url := Some u; type := "academic" |}])%list
  else if Py.contains "wikipedia.org" u then
    (sources ++ [{| title := "Wikipedia Article"; url := Some u; type := "encyclopedia" |}])%list
  else if Py.contains "doi.org" u then
    (sources ++ [{| title := "Research Paper"; url := Some u; type := "research" |}])%list
  else
    (sources ++ [{| title := "Web Source"; url := Some u; type := "web" |}])%list.

Definition extract_sources (response_text : string) : list Source :=
  let sources := [] in
  let urls := UrlPattern.findall response_text in
  let sources := fold_left categorize urls sources in
  let sources :=
    if Py.any (fun keyword => Py.contains keyword (Py.lower response_text))
              ["arxiv"; "paper"; "research"; "study"]
    then if negb (Py.any (fun s => type s =? "academic") sources)
         then (sources ++ [arxiv_repository])%list
         else sources
    else sources in
  let sources :=
    if Py.any (fun keyword => Py.contains keyword (Py.lower response_text))
              ["wikipedia"; "wiki"]
    then if negb (Py.any (fun s => type s =? "encyclopedia") sources)
         then (sources ++ [wikipedia_home])%list
         else sources
    else sources in
  sources.

(** ** The page script and the conversation store *)

(** A message is a dict with the keys ["role"] and ["content"]; the
    assistant's messages also carry ["sources"]. *)
Record Message : Type := mkMessage {
  role : string;
  content : string;
  sources : option (list Source)
}.

(** The agent executor is built and run by an outside library. *)
Inductive AgentExecutor : Type := agent_executor.

(** [st.session_state]: each key is absent until the script sets it, and
    ["agent"] may hold [None]. *)
Record session_state : Type := mkState {
  messages : option (list Message);
  agent : option (option AgentExecutor)
}.

Definition fresh_session : session_state :=
  {| messages := None; agent := None |}.

(** What the page shows through [st.error] and [st.warning]. *)
Inductive Notice : Type :=
| ApiKeyNotFound   (* the setup instructions shown when the key is missing *)
| Error (text : string)
| Warning (text : string).

(** The widget that fired for this run of the script. *)
Inductive Widget : Type :=
| NoWidget
| LatestAIResearch
| SearchWikipedia
| WebSearch
| ClearChat
| ChatInput (prompt : string).

(** Outcome of [agent.invoke]: the response dict, of which only the key
    ["output"] is read, or an exception. *)
Inductive AgentResult : Type :=
| Response (output : option string)
| AgentRaised.

(** Outcome of the direct [llm.invoke]: the [content] of the reply, or an
    exception. *)
Inductive LlmResult : Type :=
| Reply (reply_content : string)
| LlmRaised.

(** Everything one run of the script takes from outside. *)
Record World : Type := mkWorld {
  getenv_GROQ_API_KEY : option string;
  create_agent : AgentExecutor + string;
  widget : Widget;
  agent_invoke : string -> AgentResult;
  llm_invoke : string -> LlmResult
}.

(** How a run of the script goes on: to the next statement, or out of the
    script through [st.rerun()] or [st.stop()]. *)
Inductive Flow (A : Type) : Type :=
| Next (a : A)
| Rerun
| Stop.
Arguments Next {A} a.
Arguments Rerun {A}.
Arguments Stop {A}.

Record Page : Type := mkPage {
  session : session_state;
  notices : list Notice
}.

Definition Script (A : Type) : Type := Page -> Flow A * Page.

Definition ret {A} (a : A) : Script A := fun p => (Next a, p).

Definition bind {A B} (c : Script A) (k : A -> Script B) : Script B :=
  fun p =>
    match c p with
    | (Next a, p') => k a p'
    | (Rerun, p') => (Rerun, p')
    | (Stop, p') => (Stop, p')
    end.

Declare Scope script_scope.
Delimit Scope script_scope with script.
Notation "x <- c ;; k" := (bind c (fun x => k))
  (at level 61, c at next level, right associativity) : script_scope.
Notation "c ;; k" := (bind c (fun _ => k))
  (at level 61, right associativity) : script_scope.
Open Scope script_scope.

Definition st_rerun {A} : Script A := fun p => (Rerun, p).
Definition st_stop {A} : Script A := fun p => (Stop, p).

Definition show (n : Notice) : Script unit :=
  fun p => (Next tt, {| session := session p; notices := (notices p ++ [n])%list |}).
Definition st_error (text : string) : Script unit := show (Error text).
Definition st_warning (text : string) : Script unit := show (Warning text).

Definition get_state : Script session_state := fun p => (Next (session p), p).
Definition put_state (s : session_state) : Script unit :=
  fun p => (Next tt, {| session := s; notices := notices p |}).

Definition when (b : bool) (c : Script unit) : Script unit :=
  if b then c else ret tt.

(** [st.session_state.messages = l] *)
Definition set_messages (l : list Message) : Script unit :=
  s <- get_state ;; put_state {| messages := Some l; agent := agent s |}.

(** [st.session_state.agent = a] *)
Definition set_agent (a : option AgentExecutor) : Script unit :=
  s <- get_state ;; put_state {| messages := messages s; agent := Some a |}.

(** [st.session_state.messages], the empty list standing for a key that is
    not there (the script sets it before any read). *)
Definition get_messages : Script (list Message) :=
  s <- get_state ;; ret (match messages s with Some l => l | None => [] end).

(** [st.session_state.agent] *)
Definition get_agent : Script (option AgentExecutor) :=
  s <- get_state ;; ret (match agent s with Some a => a | None => None end).

(** [st.session_state.messages.append(m)] *)
Definition messages_append (m : Message) : Script unit :=
  l <- get_messages ;; set_messages (l ++ [m])%list.

Definition greeting : Message :=
  {| role := "assistant";
     content := "Hello! I'm your Syam's Search Assistant. I can help you search the web, find academic papers, and browse Wikipedia. What would you like to explore today?";
     sources := Some [] |}.

Definition cleared_greeting : Message :=
  {| role := "assistant";
     content := "Chat cleared! How can I assist you with your research today?";
     sources := Some [] |}.

Definition user_message_of (text : string) : Message :=
  {| role := "user"; content := text; sources := None |}.

Definition final_error : string :=
  "I'm experiencing technical difficulties. Please try again in a moment.".

Definition default_output : string :=
  "I apologize, but I couldn't generate a proper response.".

Definition not_initialized : string :=
  "Research assistant is not properly initialized. Please check your API key.".

(** Truth value of an optional string: [None] and [""] are false. *)
Definition truthy (o : option string) : bool :=
  match o with
  | Some (String _ _) => true
  | _ => false
  end.

Definition is_some {A} (o : option A) : bool :=
  match o with Some _ => true | None => false end.

(** [initialize_agent]: the executor, or [None] after showing the error. *)
Definition initialize_agent (w : World) : Script (option AgentExecutor) :=
  match create_agent w with
  | inl a => ret (Some a)
  | inr e => st_error ("Error initializing agent: " ++ e) ;; ret None
  end.

(** A quick-action button: when clicked, append its query and rerun. *)
Definition quick_action (clicked : bool) (query : string) : Script unit :=
  when clicked (messages_append (user_message_of query) ;; st_rerun).

Definition widget_is (w : World) (x : Widget) : bool :=
  match widget w, x with
  | NoWidget, NoWidget
  | LatestAIResearch, LatestAIResearch
  | SearchWikipedia, SearchWikipedia
  | WebSearch, WebSearch
  | ClearChat, ClearChat => true
  | _, _ => false
  end.

Definition chat_input (w : World) : option string :=
  match widget w with
  | ChatInput prompt => Some prompt
  | _ => None
  end.

(** [messages[-1]] of a non-empty list. *)
Definition last_message (l : list Message) : option Message :=
  last (map Some l) None.

(** The block under "Process the latest user message". *)
Definition process_latest (w : World) : Script unit :=
  l <- get_messages ;;
  a <- get_agent ;;
  match last_message l with
  | Some m =>
      when ((role m =? "user") && is_some a)
        (let user_message := content m in
         match agent_invoke w user_message with
         | Response response =>
             let output :=
               match response with Some o => o | None => default_output end in
             let sources := extract_sources output in
             messages_append
               {| role := "assistant"; content := output; sources := Some sources |}
         | AgentRaised =>
             st_warning "Search tools are temporarily unavailable. Providing direct AI response..." ;;
             match llm_invoke w user_message with
             | Reply fallback_content =>
                 let fallback_sources := extract_sources fallback_content in
                 messages_append
                   {| role := "assistant"; content := fallback_content;
                      sources := Some fallback_sources |}
             | LlmRaised =>
                 messages_append
                   {| role := "assistant"; content := final_error; sources := Some [] |}
             end
         end)
  | None => ret tt
  end.

(** The check of the key under "Get API key from environment". *)
Definition require_api_key (w : World) : Script unit :=
  let api_key := getenv_GROQ_API_KEY w in
  when (negb (truthy api_key)) (show ApiKeyNotFound ;; st_stop).

(** The block under "Initialize session state". *)
Definition initialize_session (w : World) : Script unit :=
  s <- get_state ;;
  when (negb (is_some (messages s))) (set_messages [greeting]) ;;
  s <- get_state ;;
  when (negb (is_some (agent s))) (a <- initialize_agent w ;; set_agent a).

(** The block under "Quick action buttons". *)
Definition quick_actions (w : World) : Script unit :=
  quick_action (widget_is w LatestAIResearch)
    "Find the latest research papers about artificial intelligence from arXiv" ;;
  quick_action (widget_is w SearchWikipedia)
    "Search Wikipedia for current events in technology" ;;
  quick_action (widget_is w WebSearch)
    "Search the web for recent developments in machine learning" ;;
  when (widget_is w ClearChat) (set_messages [cleared_greeting] ;; st_rerun).

(** The block under "Chat input". *)
Definition handle_chat_input (w : World) : Script unit :=
  when (truthy (chat_input w))
    (a <- get_agent ;;
     when (negb (is_some a)) (st_error not_initialized ;; st_stop) ;;
     messages_append
       (user_message_of (match chat_input w with Some p => p | None => "" end)) ;;
     st_rerun).

(** One run of the script, top to bottom. *)
Definition script (w : World) : Script unit :=
  require_api_key w ;;
  initialize_session w ;;
  quick_actions w ;;
  handle_chat_input w ;;
  process_latest w.

(** The page is drawn anew at every run. *)
Definition run (w : World) (s : session_state) : Flow unit * Page :=
  script w {| session := s; notices := [] |}.

(** The session state after one run. *)
Definition after (w : World) (s : session_state) : session_state :=
  session (snd (run w s)).

(** The conversation store of a session, once initialised. *)
Definition store (s : session_state) : list Message :=
  match messages s with Some l => l | None => [] end.

(** A world where the key is set, the agent is built and answers with a
    text that cites arXiv, and the direct model call fails. *)
Definition sample_world (x : Widget) : World :=
  {| getenv_GROQ_API_KEY := Some "gsk";
     create_agent := inl agent_executor;
     widget := x;
     agent_invoke := fun _ => Response (Some "See https://arxiv.org/abs/1 and Wikipedia.");
     llm_invoke := fun _ => LlmRaised |}.

(** The sessions the script can bring about, from an empty
    [st.session_state], whatever the outside does at each run. *)
Inductive reachable : session_state -> Prop :=
| reach_fresh : reachable fresh_session
| reach_run w s : reachable s -> reachable (after w s).

(** ** The display of the conversation

    The loop under "Display chat messages with sources".  Each constructor
    stands for one [st.markdown] call with its fixed markup; the texts put
    into the markup are the arguments. *)
Inductive Element : Type :=
| UserBubble (text : string)
| AssistantBubble (text : string)
| SourcesOpen
| SourcesHeading
| SourceLink (href label : string)
| SourceLabel (label : string)
| SourcesClose.

(** [if source.get("url")]: a link, or a plain label when the key is
    absent or the url is empty. *)
Definition display_source (source : Source) : Element :=
  if truthy (url source)
  then SourceLink (match url source with Some u => u | None => "" end) (title source)
  else SourceLabel (title source).

(** [message.get("sources")] as a condition: the key is there and the list
    is not empty. *)
Definition shown_sources (message : Message) : list Source :=
  match sources message with
  | Some l => l
  | None => []
  end.

Definition display_message (message : Message) : list Element :=
  if role message =? "user" then [UserBubble (content message)]
  else
    (AssistantBubble (content message)
     :: match shown_sources message with
        | [] => []
        | l => SourcesOpen :: SourcesHeading :: map display_source l ++ [SourcesClose]
        end)%list.

Definition display_messages (l : list Message) : list Element :=
  flat_map display_message l.

(** The text of a bubble, for the two elements that are bubbles. *)
Definition bubble_text (e : Element) : option string :=
  match e with
  | UserBubble text | AssistantBubble text => Some text
  | _ => None
  end.

Fixpoint bubbles (l : list Element) : list string :=
  match l with
  | [] => []
  | e :: r =>
      match bubble_text e with
      | Some text => text :: bubbles r
      | None => bubbles r
      end
  end.

(** A message as the script builds them: a user message without the key
    ["sources"], or an assistant message with it. *)
Definition well_formed (m : Message) : Prop :=
  (role m = "user" /\ sources m = None)
  \/ (role m = "assistant" /\ exists l, sources m = Some l).

(** Every source the message shows has a url that is not empty. *)
Definition sources_linked (m : Message) : Prop :=
  forall source, In source (shown_sources m) -> truthy (url source) = true.

(** A property of every message of the store, once there is a store. *)
Definition all_messages (Q : Message -> Prop) (s : session_state) : Prop :=
  match messages s with
  | Some l => Forall Q l
  | None => True
  end.

(** The store opens with one of the two greetings. *)
Definition opens_with_greeting (s : session_state) : Prop :=
  exists rest,
    messages s = Some (greeting :: rest) \/ messages s = Some (cleared_greeting :: rest).

(** The blocks of the script after the initialisation. *)
Definition interaction (w : World) : Script unit :=
  quick_actions w ;; handle_chat_input w ;; process_latest w.

(** ** The extractor as the specification words it *)

(** Classification of one matched URL, by the precedence of the
    specification. *)
Definition spec_classify (u : string) : Source :=
  if Py.contains "arxiv.org" u then
    {| title := "arXiv Academic Paper"; url := Some u; type := "academic" |}
  else if Py.contains "wikipedia.org" u then
    {| title := "Wikipedia Article"; url := Some u; type := "encyclopedia" |}
  else if Py.contains "doi.org" u then
    {| title := "Research Paper"; url := Some u; type := "research" |}
  else
    {| title := "Web Source"; url := Some u; type := "web" |}.

Definition has_type (t : string) (l : list Source) : bool :=
  existsb (fun s => type s =? t) l.

Definition mentions (keywords : list string) (text : string) : bool :=
  existsb (fun k => Py.contains k (Py.lower text)) keywords.

(** The synthetic entries, as functions of what comes before them. *)
Definition academic_entry (text : string) (before : list Source) : list Source :=
  if mentions ["arxiv"; "paper"; "research"; "study"] text
     && negb (has_type "academic" before)
  then [arxiv_repository] else [].

Definition encyclopedia_entry (text : string) (before : list Source) : list Source :=
  if mentions ["wikipedia"; "wiki"] text
     && negb (has_type "encyclopedia" before)
  then [wikipedia_home] else [].

(** Where the repetition stops: at the end of the text, or before a
    character that none of the one-character alternatives takes. *)
Definition stops (rest : string) : Prop :=
  match rest with
  | EmptyString => True
  | String c _ => UrlPattern.url_char c = false
  end.

Fixpoint all_url_chars (s : string) : bool :=
  match s with
  | EmptyString => true
  | String c r => UrlPattern.url_char c && all_url_chars r
  end.

(** The leftmost, non-overlapping matches of the pattern in a text: at
    each position either the pattern fails and the scan moves one
    character on, or it matches and the scan resumes after the match. *)
Inductive Scan : string -> list string -> Prop :=
| scan_end : Scan "" []
| scan_miss c r l :
    UrlPattern.match_url (String c r) = None ->
    Scan r l -> Scan (String c r) l
| scan_hit u rest l :
    UrlPattern.match_url (u ++ rest) = Some u ->
    Scan rest l -> Scan (u ++ rest) (u :: l).

(** ** The invariant of the conversation store *)

(** The message appended when both the agent and the direct model call
    fail. *)
Definition apology : Message :=
  {| role := "assistant"; content := final_error; sources := Some [] |}.

(** An assistant message carries the sources extracted from its own
    content, or none. *)
Definition sources_agree (m : Message) : Prop :=
  role m = "assistant" ->
  sources m = Some (extract_sources (content m)) \/ sources m = Some [].

Definition store_inv (l : list Message) : Prop :=
  l <> [] /\ Forall sources_agree l.

(** Before initialisation there is no store yet. *)
Definition state_inv (s : session_state) : Prop :=
  match messages s with
  | Some l => store_inv l
  | None => True
  end.

(** The store is there: the script has set the key ["messages"]. *)
Definition initialised (s : session_state) : Prop := messages s <> None.

(** A script keeps a property of the session, however it ends. *)
Definition preserves {A} (P : session_state -> Prop) (c : Script A) : Prop :=
  forall p, P (session p) -> P (session (snd (c p))).

(** ** Facts on strings *)

Section StringFacts.

Lemma append_nil_r (s : string) : s ++ "" = s.
Proof. induction s; simpl; congruence. Qed.

Lemma append_assoc (a b c : string) : (a ++ b) ++ c = a ++ b ++ c.
Proof. induction a; simpl; congruence. Qed.

Lemma length_append (a b : string) :
  String.length (a ++ b) = String.length a + String.length b.
Proof. induction a; simpl; congruence. Qed.

Lemma prefix_append (w r : string) : prefix w (w ++ r) = true.
Proof.
  induction w as [|a w IH]; simpl.
  - destruct r; reflexivity.
  - destruct (ascii_dec a a); [assumption | congruence].
Qed.

Lemma prefix_inv (w s : string) :
  prefix w s = true -> exists r, s = w ++ r.
Proof.
  revert s; induction w as [|a w IH]; intros s H.
  - exists s; reflexivity.
  - destruct s as [|b s]; simpl in H; [discriminate|].
    destruct (ascii_dec a b) as [->|]; [|discriminate].
    destruct (IH _ H) as [r ->]. exists r; reflexivity.
Qed.

Lemma contains_here (w s : string) :
  prefix w s = true -> Py.contains w s = true.
Proof. intros H; destruct s; cbn [Py.contains]; rewrite H; reflexivity. Qed.

Lemma contains_later (w : string) (c : ascii) (s : string) :
  Py.contains w s = true -> Py.contains w (String c s) = true.
Proof. intros H; cbn [Py.contains]. rewrite H. apply orb_true_r. Qed.

Lemma contains_intro (w pre post : string) :
  Py.contains w (pre ++ w ++ post) = true.
Proof.
  induction pre as [|c pre IH]; cbn [append].
  - apply contains_here, prefix_append.
  - apply contains_later, IH.
Qed.

Lemma contains_inv (w s : string) :
  Py.contains w s = true -> exists pre post, s = pre ++ w ++ post.
Proof.
  induction s as [|c s IH]; cbn [Py.contains]; intros H.
  - rewrite orb_false_r in H. destruct (prefix_inv _ _ H) as [r E].
    exists "", r; exact E.
  - apply orb_true_iff in H as [H|H].
    + destruct (prefix_inv _ _ H) as [r E]. exists "", r; exact E.
    + destruct (IH H) as (pre & post & ->). exists (String c pre), post; reflexivity.
Qed.

(** A text that holds [a ++ b] holds [a]. *)
Lemma contains_shorter (a b s : string) :
  Py.contains (a ++ b) s = true -> Py.contains a s = true.
Proof.
  intros H. destruct (contains_inv _ _ H) as (pre & post & ->).
  rewrite append_assoc. apply contains_intro.
Qed.

(** Two ways of cutting one text: one cut is inside the other's left
    part. *)
Lemma append_eq_append (a b c d : string) :
  a ++ b = c ++ d ->
  (exists m, c = a ++ m /\ b = m ++ d) \/ (exists m, a = c ++ m /\ d = m ++ b).
Proof.
  revert c; induction a as [|x a IH]; intros c H.
  - left; exists c; split; [reflexivity | exact H].
  - destruct c as [|y c].
    + right; exists (String x a); split; [reflexivity | symmetry; exact H].
    + simpl in H. injection H as -> H.
      destruct (IH _ H) as [(m & -> & ->)|(m & -> & ->)].
      * left; exists m; split; reflexivity.
      * right; exists m; split; reflexivity.
Qed.

End StringFacts.

(** ** Facts on the URL pattern *)

Module UrlFacts.
Import Py UrlPattern.

(** The characters the group takes one at a time: [!], the code points
    from [$] to [_], and the small letters. *)
Lemma url_char_codes (c : ascii) :
  url_char c
  = let n := nat_of_ascii c in
    ((n =? 33) || ((36 <=? n) && (n <=? 95)) || ((97 <=? n) && (n <=? 122)))%nat.
Proof. destruct c as [[] [] [] [] [] [] [] []]; reflexivity. Qed.

(** The escape alternative is never reached: [%] is in [[$-_]]. *)
Lemma url_body_step (c : ascii) (r : string) :
  url_body (String c r)
  = if url_char c then String c (url_body r) else "".
Proof.
  cbn [url_body]. destruct (url_char c) eqn:E; [reflexivity|].
  destruct (Ascii.eqb_spec c "%") as [->|]; [discriminate E | reflexivity].
Qed.

Lemma url_body_split (s : string) :
  exists rest, s = url_body s ++ rest /\ stops rest.
Proof.
  induction s as [|c s (rest & E & H)].
  - exists ""; split; [reflexivity | exact I].
  - rewrite url_body_step. destruct (url_char c) eqn:C.
    + exists rest; split; [simpl; congruence | exact H].
    + exists (String c s); split; [reflexivity | exact C].
Qed.

Lemma url_body_append (w r : string) :
  all_url_chars w = true -> url_body (w ++ r) = w ++ url_body r.
Proof.
  induction w as [|c w IH]; intros H; [reflexivity|].
  cbn [all_url_chars] in H. apply andb_true_iff in H as [C H].
  cbn [append]. rewrite url_body_step, C, IH by assumption. reflexivity.
Qed.

Lemma all_url_chars_suffix (a b : string) :
  all_url_chars (a ++ b) = true -> all_url_chars b = true.
Proof.
  induction a as [|c a IH]; cbn [append all_url_chars]; intros H; [exact H|].
  apply andb_true_iff in H as [_ H]. exact (IH H).
Qed.

Lemma literal_inv (lit s r : string) :
  literal lit s = Some r -> s = lit ++ r.
Proof.
  revert s; induction lit as [|a lit IH]; intros s H.
  - injection H as ->. reflexivity.
  - destruct s as [|c s]; cbn [literal] in H; [discriminate|].
    destruct (Ascii.eqb_spec a c) as [->|]; [|discriminate].
    rewrite (IH _ H). reflexivity.
Qed.

Lemma literal_append (lit r : string) : literal lit (lit ++ r) = Some r.
Proof.
  induction lit as [|a lit IH]; [reflexivity|].
  cbn [append literal]. rewrite Ascii.eqb_refl. exact IH.
Qed.

Lemma match_rest_inv (scheme s u : string) :
  match_rest scheme s = Some u ->
  exists r, s = "://" ++ r /\ url_body r <> ""
            /\ u = scheme ++ "://" ++ url_body r.
Proof.
  unfold match_rest. destruct (literal "://" s) as [r|] eqn:L; [|discriminate].
  apply literal_inv in L. intros H. exists r.
  destruct (url_body r) eqn:B; [discriminate|].
  injection H as <-. repeat split; [exact L | discriminate].
Qed.

(** A match is a prefix of the text that starts with [http], and the
    text goes on with a character the pattern does not take. *)
Lemma match_url_inv (s u : string) :
  match_url s = Some u ->
  exists rest, s = u ++ rest /\ stops rest /\ prefix "http" u = true.
Proof.
  unfold match_url.
  destruct (literal "http" s) as [r|] eqn:L; [|discriminate].
  apply literal_inv in L. subst s.
  assert (K : forall scheme t, prefix "http" scheme = true ->
              match_rest scheme t = Some u ->
              exists rest, scheme ++ t = u ++ rest /\ stops rest
                           /\ prefix "http" u = true).
  { intros scheme t P H.
    destruct (match_rest_inv _ _ _ H) as (b & -> & _ & ->).
    destruct (url_body_split b) as (rest & E & S).
    exists rest. repeat split; [|exact S|].
    - rewrite !append_assoc. rewrite <- E. reflexivity.
    - destruct (prefix_inv _ _ P) as [x ->]. rewrite append_assoc.
      apply prefix_append. }
  destruct (literal "s" r) as [r'|] eqn:L'.
  - apply literal_inv in L'. subst r.
    destruct (match_rest "https" r') as [v|] eqn:M.
    + intros H; injection H as ->.
      destruct (K "https" r' eq_refl M) as (rest & E & S & P).
      exists rest. repeat split; assumption.
    + intros H. exact (K "http" _ eq_refl H).
  - intros H. exact (K "http" _ eq_refl H).
Qed.

Lemma match_url_nonempty (s u : string) :
  match_url s = Some u -> exists c u', u = String c u'.
Proof.
  intros H. destruct (match_url_inv _ _ H) as (_ & _ & _ & P).
  destruct u as [|c u']; [discriminate P | eauto].
Qed.

(** Stepping over the characters of a match. *)
Lemma findall_from_skip (pre s : string) :
  findall_from (String.length pre) (pre ++ s) = findall s.
Proof. induction pre as [|c pre IH]; [reflexivity | exact IH]. Qed.

Lemma findall_hit (u rest : string) :
  match_url (u ++ rest) = Some u ->
  findall (u ++ rest) = u :: findall rest.
Proof.
  intros H. destruct (match_url_nonempty _ _ H) as (c & u' & ->).
  unfold findall at 1. cbn [append findall_from].
  change (String c (u' ++ rest)) with (String c u' ++ rest). rewrite H.
  cbn [String.length pred]. rewrite findall_from_skip. reflexivity.
Qed.

Lemma findall_miss (c : ascii) (r : string) :
  match_url (String c r) = None -> findall (String c r) = findall r.
Proof. intros H. unfold findall. cbn [findall_from]. rewrite H. reflexivity. Qed.

(** [findall] returns the leftmost non-overlapping matches. *)
Lemma findall_Scan (s : string) : Scan s (findall s).
Proof.
  remember (String.length s) as n eqn:N.
  revert s N; induction n as [n IH] using lt_wf_ind; intros s N.
  destruct s as [|c r]; [constructor|].
  destruct (match_url (String c r)) as [u|] eqn:M.
  - destruct (match_url_inv _ _ M) as (rest & E & _ & _).
    destruct (match_url_nonempty _ _ M) as (c' & u' & ->).
    rewrite E in *. rewrite (findall_hit _ _ M).
    apply scan_hit; [exact M|].
    apply (IH (String.length rest)); [|reflexivity].
    subst n. rewrite length_append. simpl. lia.
  - rewrite (findall_miss _ _ M). apply scan_miss; [exact M|].
    apply (IH (String.length r)); [subst n; simpl; lia | reflexivity].
Qed.

Lemma Scan_http (s : string) (l : list string) :
  Scan s l -> forall u, In u l -> prefix "http" u = true.
Proof.
  induction 1 as [|c r l M _ IH|u rest l M _ IH]; intros v Hv.
  - destruct Hv.
  - exact (IH v Hv).
  - destruct Hv as [<-|Hv]; [|exact (IH v Hv)].
    destruct (match_url_inv _ _ M) as (_ & _ & _ & P). exact P.
Qed.

Lemma findall_http (s u : string) :
  In u (findall s) -> prefix "http" u = true.
Proof. exact (Scan_http _ _ (findall_Scan s) u). Qed.

(** No match anywhere: the pattern fails at every position. *)
Lemma findall_nil_iff (s : string) :
  findall s = [] <-> forall pre post, s = pre ++ post -> match_url post = None.
Proof.
  split.
  - intros H pre; revert s H; induction pre as [|c pre IH]; intros s H post ->.
    + cbn [append] in H. destruct post as [|c r]; [reflexivity|].
      destruct (match_url (String c r)) as [u|] eqn:M; [|reflexivity].
      destruct (match_url_inv _ _ M) as (rest & E & _).
      rewrite E in M, H. rewrite (findall_hit _ _ M) in H. discriminate.
    + cbn [append] in H.
      destruct (match_url (String c (pre ++ post))) as [u|] eqn:M.
      * destruct (match_url_inv _ _ M) as (rest & E & _).
        rewrite E in M, H. rewrite (findall_hit _ _ M) in H. discriminate.
      * rewrite (findall_miss _ _ M) in H. exact (IH _ H post eq_refl).
  - induction s as [|c s IH]; intros H; [reflexivity|].
    rewrite findall_miss by exact (H "" _ eq_refl).
    apply IH. intros pre post ->. exact (H (String c pre) post eq_refl).
Qed.

End UrlFacts.

(** ** Facts on [extract_sources] *)

Section ExtractorFacts.
Import Py UrlPattern UrlFacts.

(** A match that reaches into an occurrence of [w], a word made of
    characters the pattern takes, runs to the end of that occurrence. *)
Lemma match_runs_through (w pre m post rest : string) :
  all_url_chars w = true ->
  stops rest ->
  w ++ post = m ++ rest ->
  contains w (pre ++ m) = true.
Proof.
  intros W S E.
  destruct (append_eq_append _ _ _ _ E) as [(x & -> & _)|(x & -> & ->)].
  - apply contains_intro.
  - destruct x as [|d x].
    + rewrite append_nil_r.
      replace (pre ++ m) with (pre ++ m ++ "")
        by (rewrite append_nil_r; reflexivity).
      apply contains_intro.
    + apply all_url_chars_suffix in W. cbn [all_url_chars] in W.
      apply andb_true_iff in W as [W _]. cbn in S. congruence.
Qed.

(** Every occurrence of such a word, when the pattern matches at its
    start, lies inside one of the matches of the scan. *)
Lemma Scan_covers (w : string) :
  all_url_chars w = true ->
  (forall post, match_url (w ++ post) <> None) ->
  forall s l, Scan s l ->
  forall pre post, s = pre ++ w ++ post ->
  exists u, In u l /\ contains w u = true.
Proof.
  intros W M s l H.
  induction H as [|c r l N _ IH|u rest l N _ IH]; intros pre post E.
  - destruct pre; [|discriminate]. cbn [append] in E.
    exfalso. apply (M post). rewrite <- E. reflexivity.
  - destruct pre as [|d pre]; cbn [append] in E.
    + exfalso. apply (M post). rewrite <- E. exact N.
    + injection E as _ E. exact (IH _ _ E).
  - destruct (match_url_inv _ _ N) as (rest' & E' & S & _).
    assert (rest' = rest) as ->.
    { clear -E'. revert E'. induction u; cbn [append]; intros E'; [congruence|].
      injection E' as E'. auto. }
    destruct (append_eq_append _ _ _ _ E) as [(m & -> & ->)|(m & -> & E2)].
    + destruct (IH _ _ eq_refl) as (v & Hv & C).
      exists v; split; [right; exact Hv | exact C].
    + destruct m as [|c m].
      * cbn [append] in E2. rewrite append_nil_r in *.
        destruct (IH "" post (eq_sym E2)) as (v & Hv & C).
        exists v; split; [right; exact Hv | exact C].
      * exists (pre ++ String c m); split; [left; reflexivity|].
        exact (match_runs_through w pre (String c m) post rest W S E2).
Qed.

Lemma categorize_classify (acc : list Source) (u : string) :
  categorize acc u = (acc ++ [spec_classify u])%list.
Proof.
  unfold categorize, spec_classify.
  destruct (contains "arxiv.org" u); [reflexivity|].
  destruct (contains "wikipedia.org" u); [reflexivity|].
  destruct (contains "doi.org" u); reflexivity.
Qed.

Lemma loop_classify (urls : list string) (acc : list Source) :
  fold_left categorize urls acc = (acc ++ map spec_classify urls)%list.
Proof.
  revert acc; induction urls as [|u urls IH]; intros acc; cbn [fold_left map].
  - rewrite app_nil_r. reflexivity.
  - rewrite IH, categorize_classify, <- app_assoc. reflexivity.
Qed.

Lemma extract_sources_unfold (text : string) :
  let found := map spec_classify (findall text) in
  let academic := academic_entry text found in
  extract_sources text
  = (found ++ academic ++ encyclopedia_entry text (found ++ academic))%list.
Proof.
  cbv zeta. unfold extract_sources, academic_entry, encyclopedia_entry, Py.any.
  rewrite loop_classify. cbn [app].
  change (existsb (fun keyword => contains keyword (lower text)))
    with (fun ks => mentions ks text).
  change (existsb (fun s => type s =? "academic")) with (has_type "academic").
  change (existsb (fun s => type s =? "encyclopedia")) with (has_type "encyclopedia").
  cbv beta.
  destruct (mentions ["arxiv"; "paper"; "research"; "study"] text);
    destruct (has_type "academic" _); cbn [andb negb];
    destruct (mentions ["wikipedia"; "wiki"] text); cbn [andb negb];
    rewrite ?app_nil_r;
    try destruct (has_type "encyclopedia" _); cbn [negb];
    rewrite <- ?app_assoc; cbn [app]; rewrite ?app_nil_r; reflexivity.
Qed.

Lemma mentions_intro (k : string) (ks : list string) (text : string) :
  In k ks -> contains k (lower text) = true -> mentions ks text = true.
Proof.
  intros I C. unfold mentions. apply existsb_exists. exists k; split; assumption.
Qed.

Lemma mentions_wiki (text : string) :
  mentions ["wikipedia"; "wiki"] text = contains "wiki" (lower text).
Proof.
  unfold mentions. cbn [existsb]. rewrite orb_false_r.
  destruct (contains "wiki" (lower text)) eqn:W; [apply orb_true_r|].
  rewrite orb_false_r.
  destruct (contains "wikipedia" (lower text)) eqn:P; [|reflexivity].
  rewrite (contains_shorter "wiki" "pedia" _ P) in W. discriminate.
Qed.

Lemma has_type_In (t : string) (l : list Source) (s : Source) :
  In s l -> type s = t -> has_type t l = true.
Proof.
  intros I E. unfold has_type. apply existsb_exists. exists s; split; [exact I|].
  rewrite E. apply String.eqb_refl.
Qed.

(** What the classification gives, case by case. *)
Lemma spec_classify_cases (u : string) :
  let s := spec_classify u in
  url s = Some u
  /\ (contains "arxiv.org" u = true ->
      type s = "academic" /\ title s = "arXiv Academic Paper")
  /\ (contains "arxiv.org" u = false -> contains "wikipedia.org" u = true ->
      type s = "encyclopedia" /\ title s = "Wikipedia Article")
  /\ (contains "arxiv.org" u = false -> contains "wikipedia.org" u = false ->
      contains "doi.org" u = true ->
      type s = "research" /\ title s = "Research Paper")
  /\ (contains "arxiv.org" u = false -> contains "wikipedia.org" u = false ->
      contains "doi.org" u = false ->
      type s = "web" /\ title s = "Web Source").
Proof.
  cbv zeta. unfold spec_classify.
  destruct (contains "arxiv.org" u), (contains "wikipedia.org" u),
    (contains "doi.org" u); cbn; repeat split; intros; congruence.
Qed.

Lemma spec_classify_type (u : string) :
  In (type (spec_classify u)) ["academic"; "encyclopedia"; "research"; "web"].
Proof.
  unfold spec_classify.
  destruct (contains "arxiv.org" u), (contains "wikipedia.org" u),
    (contains "doi.org" u); cbn; auto 6.
Qed.

Lemma spec_classify_not_home (u : string) : spec_classify u <> wikipedia_home.
Proof.
  unfold spec_classify, wikipedia_home.
  destruct (contains "arxiv.org" u), (contains "wikipedia.org" u),
    (contains "doi.org" u); discriminate.
Qed.

End ExtractorFacts.

(** ** The extractor's contract *)

Section ExtractorContract.
Import Py UrlPattern UrlFacts.

(** C1, as the specification states it, fails: a text without URL that
    mentions research and also says "wikipedia" gets two sources, the
    arXiv entry and the Wikipedia entry. *)
Lemma research_on_wikipedia_two_sources :
  findall "Research on Wikipedia" = []
  /\ contains "research" (lower "Research on Wikipedia") = true
  /\ extract_sources "Research on Wikipedia" = [arxiv_repository; wikipedia_home]
  /\ extract_sources "Research on Wikipedia" <> [arxiv_repository].
Proof. repeat split; try reflexivity. vm_compute. discriminate. Qed.

(** C1 (amended): for a text in which the URL pattern matches nowhere and
    whose lowercased form contains "research", [extract_sources] returns
    the arXiv Repository entry first; it is the only source when the
    lowercased text does not contain "wiki", and it is followed by the
    Wikipedia entry, and nothing else, when it does. *)
Theorem research_without_urls (text : string) :
  findall text = [] ->
  contains "research" (lower text) = true ->
  (contains "wiki" (lower text) = false ->
   extract_sources text = [arxiv_repository])
  /\ (contains "wiki" (lower text) = true ->
      extract_sources text = [arxiv_repository; wikipedia_home]).
Proof.
  intros F R. rewrite extract_sources_unfold. cbv zeta.
  unfold academic_entry, encyclopedia_entry. rewrite F. cbn [map app has_type existsb negb].
  rewrite (mentions_intro "research" _ text) by (cbn; auto || exact R).
  rewrite mentions_wiki. cbn [andb has_type existsb].
  split; intros ->; reflexivity.
Qed.

Lemma research_without_urls_witness :
  findall "Latest RESEARCH results" = []
  /\ contains "research" (lower "Latest RESEARCH results") = true
  /\ contains "wiki" (lower "Latest RESEARCH results") = false
  /\ extract_sources "Latest RESEARCH results" = [arxiv_repository].
Proof.
  split; [reflexivity|]. split; [reflexivity|]. split; [reflexivity|].
  apply (research_without_urls "Latest RESEARCH results"); reflexivity.
Defined.

(** C2, as the specification states it, fails: in a text that holds
    [https://arxiv.org/abs/1234] as part of a longer URL the match is the
    longer URL, and no source has exactly the shorter one. *)
Lemma longer_arxiv_url_not_exact :
  contains "https://arxiv.org/abs/1234" "See https://arxiv.org/abs/12345 for details" = true
  /\ ~ exists s,
         In s (extract_sources "See https://arxiv.org/abs/12345 for details")
         /\ type s = "academic"
         /\ url s = Some "https://arxiv.org/abs/1234"
         /\ title s = "arXiv Academic Paper".
Proof.
  split; [reflexivity|].
  intros (s & I & _ & U & _). vm_compute in I.
  destruct I as [<-|[]]. discriminate U.
Qed.

(** C2 (amended): for every text that contains the substring
    [https://arxiv.org/abs/1234], [extract_sources] returns some source of
    type academic with title "arXiv Academic Paper" whose url is a match of
    the URL pattern that contains that substring. *)
Theorem arxiv_url_is_academic (text : string) :
  contains "https://arxiv.org/abs/1234" text = true ->
  exists s u,
    In s (extract_sources text)
    /\ type s = "academic"
    /\ title s = "arXiv Academic Paper"
    /\ url s = Some u
    /\ In u (findall text)
    /\ contains "https://arxiv.org/abs/1234" u = true.
Proof.
  intros C. destruct (contains_inv _ _ C) as (pre & post & E).
  destruct (Scan_covers "https://arxiv.org/abs/1234" eq_refl) with
    (s := text) (l := findall text) (pre := pre) (post := post)
    as (u & I & Cu).
  - intros p. cbn. repeat rewrite url_body_step; cbn. discriminate.
  - apply findall_Scan.
  - exact E.
  - assert (A : contains "arxiv.org" u = true).
    { destruct (contains_inv _ _ Cu) as (a & b & ->).
      change "https://arxiv.org/abs/1234" with ("https://" ++ "arxiv.org" ++ "/abs/1234").
      rewrite !append_assoc, <- (append_assoc a "https://").
      apply contains_intro. }
    destruct (spec_classify_cases u) as (U & Ha & _). destruct (Ha A) as [T1 T2].
    exists (spec_classify u), u. repeat split; try assumption.
    rewrite extract_sources_unfold. cbv zeta.
    apply in_or_app; left. apply in_map. exact I.
Qed.

Lemma arxiv_url_is_academic_witness :
  contains "https://arxiv.org/abs/1234" "Read https://arxiv.org/abs/1234 today" = true
  /\ exists s u,
       In s (extract_sources "Read https://arxiv.org/abs/1234 today")
       /\ type s = "academic"
       /\ title s = "arXiv Academic Paper"
       /\ url s = Some u
       /\ In u (findall "Read https://arxiv.org/abs/1234 today")
       /\ contains "https://arxiv.org/abs/1234" u = true.
Proof.
  split; [reflexivity|].
  apply (arxiv_url_is_academic "Read https://arxiv.org/abs/1234 today").
  reflexivity.
Defined.

(** C3: the list returned by [extract_sources] is one source per match of
    the URL pattern, in the left-to-right order of the matches, duplicates
    kept; then the arXiv Repository entry exactly when the lowercased text
    contains one of "arxiv", "paper", "research", "study" and no
    URL-derived source has type academic; then the Wikipedia entry exactly
    when the lowercased text contains "wikipedia" or "wiki" and no earlier
    source has type encyclopedia. *)
Theorem extract_sources_order (text : string) :
  let found := map spec_classify (findall text) in
  let academic :=
    if mentions ["arxiv"; "paper"; "research"; "study"] text
       && negb (has_type "academic" found)
    then [arxiv_repository] else [] in
  let encyclopedia :=
    if mentions ["wikipedia"; "wiki"] text
       && negb (has_type "encyclopedia" (found ++ academic))
    then [wikipedia_home] else [] in
  Scan text (findall text)
  /\ extract_sources text = (found ++ academic ++ encyclopedia)%list.
Proof.
  split; [apply findall_Scan | apply extract_sources_unfold].
Qed.

(** C4: the source built from a matched URL keeps that URL and is
    classified by containment, in this precedence: "arxiv.org" gives
    academic, "arXiv Academic Paper"; else "wikipedia.org" gives
    encyclopedia, "Wikipedia Article"; else "doi.org" gives research,
    "Research Paper"; otherwise web, "Web Source". *)
Theorem matched_url_classified (text : string) (i : nat) (u : string) :
  nth_error (findall text) i = Some u ->
  exists s,
    nth_error (extract_sources text) i = Some s
    /\ url s = Some u
    /\ (contains "arxiv.org" u = true ->
        type s = "academic" /\ title s = "arXiv Academic Paper")
    /\ (contains "arxiv.org" u = false -> contains "wikipedia.org" u = true ->
        type s = "encyclopedia" /\ title s = "Wikipedia Article")
    /\ (contains "arxiv.org" u = false -> contains "wikipedia.org" u = false ->
        contains "doi.org" u = true ->
        type s = "research" /\ title s = "Research Paper")
    /\ (contains "arxiv.org" u = false -> contains "wikipedia.org" u = false ->
        contains "doi.org" u = false ->
        type s = "web" /\ title s = "Web Source").
Proof.
  intros N. exists (spec_classify u). split; [|apply spec_classify_cases].
  rewrite extract_sources_unfold. cbv zeta.
  rewrite nth_error_app1.
  - apply map_nth_error. exact N.
  - rewrite length_map. apply nth_error_Some. congruence.
Qed.

Lemma matched_url_classified_witness :
  nth_error (findall "Cf. http://example.com, https://doi.org/10.1000/182 and more") 1
  = Some "https://doi.org/10.1000/182"
  /\ exists s,
       nth_error (extract_sources "Cf. http://example.com, https://doi.org/10.1000/182 and more") 1
       = Some s
       /\ url s = Some "https://doi.org/10.1000/182"
       /\ type s = "research" /\ title s = "Research Paper".
Proof.
  split; [reflexivity|].
  destruct (matched_url_classified
              "Cf. http://example.com, https://doi.org/10.1000/182 and more"
              1 "https://doi.org/10.1000/182" eq_refl)
    as (s & N & U & _ & _ & R & _).
  exists s. split; [exact N|]. split; [exact U|].
  apply R; reflexivity.
Defined.
End ExtractorContract.


Section ExtractorInvariants.
Import Py UrlPattern UrlFacts.

(** C5, as the specification states it, fails: two URLs written with a
    comma and no space between them are one match of the pattern; it holds
    both "arxiv.org" and "wikipedia.org" and is classified academic, so no
    source of type encyclopedia exists and the Wikipedia entry is
    appended. *)
Lemma arxiv_wikipedia_url_gets_synthetic :
  findall "Sources: https://arxiv.org/abs/1234,https://en.wikipedia.org/wiki/Rocq"
  = ["https://arxiv.org/abs/1234,https://en.wikipedia.org/wiki/Rocq"]
  /\ contains "wikipedia.org"
       "https://arxiv.org/abs/1234,https://en.wikipedia.org/wiki/Rocq" = true
  /\ contains "wiki"
       (lower "Sources: https://arxiv.org/abs/1234,https://en.wikipedia.org/wiki/Rocq")
     = true
  /\ extract_sources
       "Sources: https://arxiv.org/abs/1234,https://en.wikipedia.org/wiki/Rocq"
     = [ {| title := "arXiv Academic Paper";
            url := Some "https://arxiv.org/abs/1234,https://en.wikipedia.org/wiki/Rocq";
            type := "academic" |};
         wikipedia_home ]
  /\ In wikipedia_home
       (extract_sources
          "Sources: https://arxiv.org/abs/1234,https://en.wikipedia.org/wiki/Rocq").
Proof.
  split; [reflexivity|]. split; [reflexivity|]. split; [reflexivity|].
  split; [reflexivity|]. right; left; reflexivity.
Qed.

(** C5 (amended): for every text with a match of the URL pattern that
    contains "wikipedia.org" and does not contain "arxiv.org", and whose
    lowercased form contains "wiki", no element of the list returned by
    [extract_sources] equals the Wikipedia entry: the append is suppressed
    because a URL-derived source of type encyclopedia exists. *)
Theorem wikipedia_url_suppresses_synthetic (text u : string) :
  In u (findall text) ->
  contains "wikipedia.org" u = true ->
  contains "arxiv.org" u = false ->
  contains "wiki" (lower text) = true ->
  has_type "encyclopedia" (map spec_classify (findall text)) = true
  /\ ~ In wikipedia_home (extract_sources text).
Proof.
  intros I W A _.
  assert (E : has_type "encyclopedia" (map spec_classify (findall text)) = true).
  { apply (has_type_In _ _ (spec_classify u)); [apply in_map; exact I|].
    destruct (spec_classify_cases u) as (_ & _ & H & _). exact (proj1 (H A W)). }
  split; [exact E|].
  rewrite extract_sources_unfold. cbv zeta. unfold encyclopedia_entry.
  assert (E' : has_type "encyclopedia"
                 (map spec_classify (findall text)
                  ++ academic_entry text (map spec_classify (findall text))) = true).
  { unfold has_type in *. rewrite existsb_app, E. reflexivity. }
  rewrite E', andb_false_r, app_nil_r.
  intros H. apply in_app_or in H as [H|H].
  - apply in_map_iff in H as (v & H & _). exact (spec_classify_not_home v H).
  - unfold academic_entry in H.
    destruct (_ && _) in H; [destruct H as [H|[]]; discriminate H | destruct H].
Qed.

Lemma wikipedia_url_suppresses_synthetic_witness :
  In "https://en.wikipedia.org/wiki/Coq" (findall "See https://en.wikipedia.org/wiki/Coq (wiki)")
  /\ contains "wikipedia.org" "https://en.wikipedia.org/wiki/Coq" = true
  /\ contains "arxiv.org" "https://en.wikipedia.org/wiki/Coq" = false
  /\ contains "wiki" (lower "See https://en.wikipedia.org/wiki/Coq (wiki)") = true
  /\ ~ In wikipedia_home (extract_sources "See https://en.wikipedia.org/wiki/Coq (wiki)").
Proof.
  split; [left; reflexivity|]. split; [reflexivity|]. split; [reflexivity|].
  split; [reflexivity|].
  apply (wikipedia_url_suppresses_synthetic
           "See https://en.wikipedia.org/wiki/Coq (wiki)"
           "https://en.wikipedia.org/wiki/Coq");
    [left; reflexivity | reflexivity | reflexivity | reflexivity].
Defined.

(** C10: every source returned by [extract_sources] has a url, which is a
    non-empty string that begins with "http", and a type among academic,
    encyclopedia, research and web. *)
Theorem sources_have_http_url (text : string) (s : Source) :
  In s (extract_sources text) ->
  exists u,
    url s = Some u
    /\ u <> ""
    /\ prefix "http" u = true
    /\ In (type s) ["academic"; "encyclopedia"; "research"; "web"].
Proof.
  rewrite extract_sources_unfold. cbv zeta. intros H.
  apply in_app_or in H as [H|H]; [|apply in_app_or in H as [H|H]].
  - apply in_map_iff in H as (u & <- & I).
    exists u. destruct (spec_classify_cases u) as (U & _).
    pose proof (findall_http _ _ I) as P.
    repeat split; [exact U | | exact P | apply spec_classify_type].
    intros ->. discriminate P.
  - unfold academic_entry in H. destruct (_ && _) in H; [|destruct H].
    destruct H as [<-|[]]. exists "https://arxiv.org".
    repeat split; [discriminate | cbn; auto].
  - unfold encyclopedia_entry in H. destruct (_ && _) in H; [|destruct H].
    destruct H as [<-|[]]. exists "https://wikipedia.org".
    repeat split; [discriminate | cbn; auto].
Qed.

Lemma sources_have_http_url_witness :
  In arxiv_repository (extract_sources "a paper")
  /\ exists u,
       url arxiv_repository = Some u
       /\ u <> ""
       /\ prefix "http" u = true
       /\ In (type arxiv_repository) ["academic"; "encyclopedia"; "research"; "web"].
Proof.
  split; [left; reflexivity|].
  apply (sources_have_http_url "a paper" arxiv_repository).
  left; reflexivity.
Defined.

End ExtractorInvariants.

(** ** Facts on the page script *)

Section ScriptFacts.

Variable P : session_state -> Prop.

Lemma preserves_ret {A} (a : A) : preserves P (ret a).
Proof. intros p H; exact H. Qed.

Lemma preserves_bind {A B} (c : Script A) (k : A -> Script B) :
  preserves P c -> (forall a, preserves P (k a)) -> preserves P (bind c k).
Proof.
  intros Hc Hk p H. unfold bind. specialize (Hc p H).
  destruct (c p) as [[a| |] p']; cbn in *; [apply Hk| |]; exact Hc.
Qed.

Lemma preserves_when (b : bool) (c : Script unit) :
  preserves P c -> preserves P (when b c).
Proof. intros H. destruct b; [exact H | apply preserves_ret]. Qed.

Lemma preserves_rerun {A} : preserves P (@st_rerun A).
Proof. intros p H; exact H. Qed.

Lemma preserves_stop {A} : preserves P (@st_stop A).
Proof. intros p H; exact H. Qed.

Lemma preserves_show (n : Notice) : preserves P (show n).
Proof. intros p H; exact H. Qed.

Lemma preserves_get_state : preserves P get_state.
Proof. intros p H; exact H. Qed.

Lemma preserves_get_messages : preserves P get_messages.
Proof. intros p H; exact H. Qed.

Lemma preserves_get_agent : preserves P get_agent.
Proof. intros p H; exact H. Qed.

End ScriptFacts.

Section StoreFacts.

Lemma sources_agree_user (text : string) : sources_agree (user_message_of text).
Proof. intros H; discriminate H. Qed.

Lemma sources_agree_extracted (text : string) :
  sources_agree
    {| role := "assistant"; content := text; sources := Some (extract_sources text) |}.
Proof. intros _; left; reflexivity. Qed.

Lemma sources_agree_empty (text : string) :
  sources_agree {| role := "assistant"; content := text; sources := Some [] |}.
Proof. intros _; right; reflexivity. Qed.

Lemma store_inv_single (m : Message) : sources_agree m -> store_inv [m].
Proof. intros H; split; [discriminate | constructor; [exact H | constructor]]. Qed.

Lemma store_inv_append (l : list Message) (m : Message) :
  Forall sources_agree l -> sources_agree m -> store_inv (l ++ [m]).
Proof.
  intros Hl Hm; split.
  - destruct l; discriminate.
  - apply Forall_app; split; [exact Hl | constructor; [exact Hm | constructor]].
Qed.

Lemma preserves_set_messages (l : list Message) :
  store_inv l -> preserves state_inv (set_messages l).
Proof. intros H p _. exact H. Qed.

Lemma preserves_set_agent (a : option AgentExecutor) :
  preserves state_inv (set_agent a).
Proof. intros p H. exact H. Qed.

Lemma preserves_messages_append (m : Message) :
  sources_agree m -> preserves state_inv (messages_append m).
Proof.
  intros Hm p H. unfold state_inv in *. cbn.
  destruct (messages (session p)) as [l|].
  - apply store_inv_append; [exact (proj2 H) | exact Hm].
  - apply store_inv_single; exact Hm.
Qed.

Lemma preserves_initialize_agent (w : World) :
  preserves state_inv (initialize_agent w).
Proof.
  unfold initialize_agent. destruct (create_agent w).
  - apply preserves_ret.
  - apply preserves_bind; [apply preserves_show | intros; apply preserves_ret].
Qed.

Lemma preserves_quick_action (clicked : bool) (query : string) :
  preserves state_inv (quick_action clicked query).
Proof.
  apply preserves_when, preserves_bind.
  - apply preserves_messages_append, sources_agree_user.
  - intros; apply preserves_rerun.
Qed.

Lemma preserves_process_latest (w : World) :
  preserves state_inv (process_latest w).
Proof.
  unfold process_latest.
  apply preserves_bind; [apply preserves_get_messages | intros l].
  apply preserves_bind; [apply preserves_get_agent | intros a].
  destruct (last_message l) as [m|]; [|apply preserves_ret].
  apply preserves_when.
  destruct (agent_invoke w (content m)) as [response|].
  - apply preserves_messages_append, sources_agree_extracted.
  - apply preserves_bind; [apply preserves_show | intros _].
    destruct (llm_invoke w (content m)).
    + apply preserves_messages_append, sources_agree_extracted.
    + apply preserves_messages_append, sources_agree_empty.
Qed.

(** One run of the script keeps the invariant of the store. *)
Lemma preserves_script (w : World) : preserves state_inv (script w).
Proof.
  unfold script, require_api_key, initialize_session, quick_actions,
    handle_chat_input.
  repeat first
    [ apply preserves_process_latest
    | apply preserves_quick_action
    | apply preserves_initialize_agent
    | apply preserves_set_agent
    | apply preserves_get_state
    | apply preserves_get_agent
    | apply preserves_show
    | apply preserves_rerun
    | apply preserves_stop
    | apply preserves_messages_append, sources_agree_user
    | apply preserves_set_messages, store_inv_single, sources_agree_empty
    | apply preserves_when
    | apply preserves_bind
    | match goal with |- forall _, preserves _ _ => intro end ].
Qed.

Lemma state_inv_after (w : World) (s : session_state) :
  state_inv s -> state_inv (after w s).
Proof. intros H. unfold after, run. apply preserves_script. exact H. Qed.

Lemma initialised_set_messages (l : list Message) :
  preserves initialised (set_messages l).
Proof. intros p _; discriminate. Qed.

Lemma initialised_set_agent (a : option AgentExecutor) :
  preserves initialised (set_agent a).
Proof. intros p H; exact H. Qed.

Lemma initialised_messages_append (m : Message) :
  preserves initialised (messages_append m).
Proof. intros p _; discriminate. Qed.

Lemma initialised_tail (w : World) :
  preserves initialised
    (quick_actions w ;; handle_chat_input w ;; process_latest w).
Proof.
  unfold quick_actions, handle_chat_input, process_latest, quick_action,
    initialize_agent.
  repeat first
    [ apply initialised_set_agent
    | apply initialised_set_messages
    | apply initialised_messages_append
    | apply preserves_get_state
    | apply preserves_get_messages
    | apply preserves_get_agent
    | apply preserves_show
    | apply preserves_rerun
    | apply preserves_stop
    | apply preserves_ret
    | apply preserves_when
    | apply preserves_bind
    | match goal with |- forall _, preserves _ _ => intro end
    | match goal with |- preserves _ (match ?x with _ => _ end) => destruct x end ].
Qed.

(** A run that finds the key leaves an initialised store. *)
Lemma initialised_after (w : World) (s : session_state) :
  truthy (getenv_GROQ_API_KEY w) = true -> initialised (after w s).
Proof.
  intros T. unfold after, run, script, require_api_key. rewrite T.
  cbn [negb when]. unfold bind at 1. cbn [ret].
  unfold bind at 1.
  assert (I : exists p, initialize_session w {| session := s; notices := [] |}
                        = (Next tt, p) /\ initialised (session p)).
  { unfold initialize_session, initialize_agent.
    destruct s as [[l|] [ag|]]; destruct (create_agent w); cbn;
      eexists; (split; [reflexivity | discriminate]). }
  destruct I as (p & -> & I). apply initialised_tail. exact I.
Qed.

End StoreFacts.

(** ** The conversation store's contract *)

Section StoreContract.

(** C6: in every session the script can bring about, the store, once
    initialised, holds at least one message, and every assistant message
    in it has for sources the output of [extract_sources] on its own
    content, or the empty list; and every run that finds the key leaves
    the store initialised. *)
Theorem store_invariant (s : session_state) :
  reachable s ->
  (forall l, messages s = Some l ->
     l <> []
     /\ forall m, In m l -> role m = "assistant" ->
          sources m = Some (extract_sources (content m)) \/ sources m = Some [])
  /\ (forall w, truthy (getenv_GROQ_API_KEY w) = true ->
       exists l, messages (after w s) = Some l /\ l <> []).
Proof.
  intros R.
  assert (I : state_inv s).
  { induction R as [|w s _ IH]; [exact I | exact (state_inv_after w s IH)]. }
  split.
  - intros l E. unfold state_inv in I. rewrite E in I. destruct I as [N F].
    split; [exact N|]. intros m Hm. exact (proj1 (Forall_forall _ _) F m Hm).
  - intros w T. pose proof (state_inv_after w s I) as J.
    pose proof (initialised_after w s T) as K. unfold state_inv, initialised in *.
    destruct (messages (after w s)) as [l|]; [|congruence].
    exists l; split; [reflexivity | exact (proj1 J)].
Qed.

Lemma store_invariant_witness :
  reachable (after (sample_world NoWidget)
               (after (sample_world LatestAIResearch)
                  (after (sample_world NoWidget) fresh_session)))
  /\ exists l,
       messages (after (sample_world NoWidget)
                   (after (sample_world LatestAIResearch)
                      (after (sample_world NoWidget) fresh_session))) = Some l
       /\ List.length l = 3
       /\ l <> []
       /\ forall m, In m l -> role m = "assistant" ->
            sources m = Some (extract_sources (content m)) \/ sources m = Some [].
Proof.
  split; [repeat constructor|].
  eexists. split; [reflexivity|]. split; [reflexivity|].
  apply (store_invariant
           (after (sample_world NoWidget)
              (after (sample_world LatestAIResearch)
                 (after (sample_world NoWidget) fresh_session)))).
  - repeat constructor.
  - reflexivity.
Defined.

(** The chat input does refuse a prompt when the agent is [None]: the
    error is shown, the script stops and the store is unchanged. *)
Lemma chat_input_refused_without_agent
    (k : ascii) (key : string) (create : AgentExecutor + string)
    (c : ascii) (prompt : string)
    (ai : string -> AgentResult) (li : string -> LlmResult) (l : list Message) :
  run {| getenv_GROQ_API_KEY := Some (String k key); create_agent := create;
         widget := ChatInput (String c prompt);
         agent_invoke := ai; llm_invoke := li |}
      {| messages := Some l; agent := Some None |}
  = (Stop, {| session := {| messages := Some l; agent := Some None |};
              notices := [Error not_initialized] |}).
Proof. reflexivity. Qed.

(** C7 (the code departs from it): with the agent [None], a click on a
    quick-action button is not refused: no notice is shown, the canned
    query is appended to the store as a user message and the script
    reruns. *)
Theorem quick_action_not_refused_without_agent
    (k : ascii) (key : string) (create : AgentExecutor + string)
    (ai : string -> AgentResult) (li : string -> LlmResult) (l : list Message) :
  let null_agent := {| messages := Some l; agent := Some None |} in
  let world x :=
    {| getenv_GROQ_API_KEY := Some (String k key); create_agent := create;
       widget := x; agent_invoke := ai; llm_invoke := li |} in
  let appended text :=
    (Rerun (A := unit),
     {| session := {| messages := Some (l ++ [user_message_of text])%list;
                      agent := Some None |};
        notices := [] |}) in
  run (world LatestAIResearch) null_agent
  = appended "Find the latest research papers about artificial intelligence from arXiv"
  /\ run (world SearchWikipedia) null_agent
     = appended "Search Wikipedia for current events in technology"
  /\ run (world WebSearch) null_agent
     = appended "Search the web for recent developments in machine learning".
Proof. repeat split. Qed.

(** C8: for a pending user message, when the agent's invocation raises and
    the direct call of the model raises too, the run goes to its end and
    appends to the store one assistant message, whose content is the fixed
    apology and whose sources are empty. *)
Theorem double_fallback_apology
    (w : World) (s : session_state) (l : list Message) (m : Message)
    (a : AgentExecutor) :
  truthy (getenv_GROQ_API_KEY w) = true ->
  widget w = NoWidget ->
  messages s = Some l ->
  agent s = Some (Some a) ->
  last_message l = Some m ->
  role m = "user" ->
  agent_invoke w (content m) = AgentRaised ->
  llm_invoke w (content m) = LlmRaised ->
  fst (run w s) = Next tt
  /\ messages (after w s)
     = Some (l ++ [{| role := "assistant";
                      content := "I'm experiencing technical difficulties. Please try again in a moment.";
                      sources := Some [] |}])%list
  /\ agent (after w s) = Some (Some a).
Proof.
  intros T W M A L R AI LI.
  destruct w as [key create wd ai li], s as [ms ag]. cbn in T, W, M, A, AI, LI.
  subst wd ms ag.
  unfold after, run, script, require_api_key, initialize_session, quick_actions,
    handle_chat_input, process_latest.
  cbn [getenv_GROQ_API_KEY widget agent_invoke llm_invoke].
  rewrite T. cbn -[String.eqb extract_sources last_message].
  rewrite L. rewrite R. cbn -[extract_sources]. rewrite AI. cbn -[extract_sources].
  rewrite LI. cbn. repeat split.
Qed.

Lemma double_fallback_apology_witness :
  let w := {| getenv_GROQ_API_KEY := Some "gsk";
              create_agent := inl agent_executor;
              widget := NoWidget;
              agent_invoke := fun _ => AgentRaised;
              llm_invoke := fun _ => LlmRaised |} in
  let l := [greeting; user_message_of "What is new in AI research?"] in
  let s := {| messages := Some l; agent := Some (Some agent_executor) |} in
  fst (run w s) = Next tt
  /\ messages (after w s)
     = Some (l ++ [{| role := "assistant";
                      content := "I'm experiencing technical difficulties. Please try again in a moment.";
                      sources := Some [] |}])%list
  /\ agent (after w s) = Some (Some agent_executor).
Proof.
  intros w l s.
  apply (double_fallback_apology w s l
           (user_message_of "What is new in AI research?") agent_executor);
    reflexivity.
Defined.

(** C9: after a Clear transition the store has exactly one message, whose
    role is assistant and whose sources are empty, whatever the store held
    before. *)
Theorem clear_resets_store (w : World) (s : session_state) :
  truthy (getenv_GROQ_API_KEY w) = true ->
  widget w = ClearChat ->
  fst (run w s) = Rerun
  /\ List.length (store (after w s)) = 1
  /\ exists m,
       messages (after w s) = Some [m]
       /\ role m = "assistant"
       /\ sources m = Some [].
Proof.
  intros T W.
  destruct w as [key create wd ai li]. cbn in T, W. subst wd.
  destruct key as [[|k key]|]; try discriminate T.
  destruct s as [[l|] [ag|]]; destruct create; cbn;
    (split; [reflexivity|]); (split; [reflexivity|]);
    exists cleared_greeting; repeat split.
Qed.

Lemma clear_resets_store_witness :
  let s := after (sample_world NoWidget)
             (after (sample_world LatestAIResearch)
                (after (sample_world NoWidget) fresh_session)) in
  List.length (store s) = 3
  /\ fst (run (sample_world ClearChat) s) = Rerun
  /\ List.length (store (after (sample_world ClearChat) s)) = 1
  /\ exists m,
       messages (after (sample_world ClearChat) s) = Some [m]
       /\ role m = "assistant"
       /\ sources m = Some [].
Proof.
  intros s. split; [reflexivity|].
  apply (clear_resets_store (sample_world ClearChat) s); reflexivity.
Defined.

End StoreContract.

(** ** More on the URL pattern and the extractor *)

Section ExtractorMore.
Import Py UrlPattern UrlFacts.

Lemma all_url_chars_body (s : string) : all_url_chars (url_body s) = true.
Proof.
  induction s as [|c s IH]; [reflexivity|].
  rewrite url_body_step. destruct (url_char c) eqn:C; [|reflexivity].
  cbn [all_url_chars]. rewrite C, IH. reflexivity.
Qed.

Lemma contains_append_left (v p r : string) :
  contains v r = true -> contains v (p ++ r) = true.
Proof.
  intros H. induction p as [|c p IH]; [exact H|].
  cbn [append]. apply contains_later, IH.
Qed.

Lemma match_url_shape (s u : string) :
  match_url s = Some u ->
  exists body,
    body <> "" /\ all_url_chars body = true
    /\ (u = "http://" ++ body \/ u = "https://" ++ body).
Proof.
  unfold match_url.
  destruct (literal "http" s) as [r|]; [|discriminate].
  assert (K : forall scheme t, match_rest scheme t = Some u ->
                exists body, body <> "" /\ all_url_chars body = true
                             /\ u = scheme ++ "://" ++ body).
  { intros scheme t H. destruct (match_rest_inv _ _ _ H) as (b & _ & N & ->).
    exists (url_body b). repeat split; [exact N | apply all_url_chars_body]. }
  destruct (literal "s" r) as [r'|].
  - destruct (match_rest "https" r') as [v|] eqn:M.
    + intros H; injection H as ->. destruct (K _ _ M) as (b & N & A & ->).
      exists b. repeat split; [exact N | exact A | right; reflexivity].
    + intros H. destruct (K _ _ H) as (b & N & A & ->).
      exists b. repeat split; [exact N | exact A | left; reflexivity].
  - intros H. destruct (K _ _ H) as (b & N & A & ->).
    exists b. repeat split; [exact N | exact A | left; reflexivity].
Qed.

(** X1: the escape alternative [%XX] of the pattern is never used: the
    repetition takes the longest prefix made of the characters of the four
    one-character classes, and stops at the end of the text or before a
    character outside them. *)
Theorem url_body_longest_prefix (s : string) :
  exists rest,
    s = url_body s ++ rest
    /\ all_url_chars (url_body s) = true
    /\ match rest with
       | EmptyString => True
       | String c _ => url_char c = false
       end.
Proof.
  destruct (url_body_split s) as (rest & E & S).
  exists rest. repeat split; [exact E | apply all_url_chars_body | exact S].
Qed.

(** X2: every match returned by [findall] is [http://] or [https://]
    followed by at least one character, all of them characters the pattern
    takes; so a match holds no space and no character above [z]. *)
Theorem findall_url_shape (text u : string) :
  In u (findall text) ->
  exists body,
    body <> "" /\ all_url_chars body = true
    /\ (u = "http://" ++ body \/ u = "https://" ++ body).
Proof.
  pose proof (findall_Scan text) as H. revert u.
  induction H as [|c r l M _ IH|v rest l M _ IH]; intros u I.
  - destruct I.
  - exact (IH u I).
  - destruct I as [<-|I]; [exact (match_url_shape _ _ M) | exact (IH u I)].
Qed.

Lemma findall_url_shape_witness :
  In "https://doi.org/10.1000/182" (findall "doi: https://doi.org/10.1000/182 (2020)")
  /\ exists body,
       body <> "" /\ all_url_chars body = true
       /\ ("https://doi.org/10.1000/182" = "http://" ++ body
           \/ "https://doi.org/10.1000/182" = "https://" ++ body).
Proof.
  split; [left; reflexivity|].
  apply (findall_url_shape "doi: https://doi.org/10.1000/182 (2020)").
  left; reflexivity.
Defined.

(** X3: the matches do not overlap: their lengths add up to at most the
    length of the text. *)
Theorem findall_total_length (text : string) :
  list_sum (map String.length (findall text)) <= String.length text.
Proof.
  pose proof (findall_Scan text) as H.
  induction H as [|c r l _ _ IH|u rest l _ _ IH]; cbn [map list_sum String.length].
  - apply Nat.le_refl.
  - apply le_S, IH.
  - rewrite length_append. apply Nat.add_le_mono_l, IH.
Qed.

Lemma Scan_contains (s : string) (l : list string) :
  Scan s l -> forall u, In u l -> contains u s = true.
Proof.
  induction 1 as [|c r l _ _ IH|v rest l _ _ IH]; intros u I.
  - destruct I.
  - apply contains_later, IH, I.
  - destruct I as [<-|I].
    + exact (contains_intro v "" rest).
    + apply contains_append_left, IH, I.
Qed.

(** X4: the url of every source returned by [extract_sources] occurs
    verbatim in the text, unless the source is one of the two synthetic
    entries. *)
Theorem source_url_occurs_in_text (text : string) (s : Source) :
  In s (extract_sources text) ->
  s = arxiv_repository \/ s = wikipedia_home
  \/ exists u, url s = Some u /\ In u (findall text) /\ contains u text = true.
Proof.
  rewrite extract_sources_unfold. cbv zeta. intros H.
  apply in_app_or in H as [H|H]; [|apply in_app_or in H as [H|H]].
  - right; right. apply in_map_iff in H as (u & <- & I). exists u.
    destruct (spec_classify_cases u) as (U & _).
    repeat split; [exact U | exact I |].
    exact (Scan_contains _ _ (findall_Scan text) u I).
  - unfold academic_entry in H. destruct (_ && _) in H; [|destruct H].
    destruct H as [<-|[]]. left; reflexivity.
  - unfold encyclopedia_entry in H. destruct (_ && _) in H; [|destruct H].
    destruct H as [<-|[]]. right; left; reflexivity.
Qed.

Lemma source_url_occurs_in_text_witness :
  In {| title := "Web Source"; url := Some "http://example.com/a"; type := "web" |}
     (extract_sources "Go to http://example.com/a now")
  /\ exists u,
       Some "http://example.com/a" = Some u
       /\ In u (findall "Go to http://example.com/a now")
       /\ contains u "Go to http://example.com/a now" = true.
Proof.
  split; [left; reflexivity|].
  destruct (source_url_occurs_in_text "Go to http://example.com/a now"
              {| title := "Web Source"; url := Some "http://example.com/a"; type := "web" |})
    as [H|[H|H]]; [left; reflexivity | discriminate H | discriminate H | exact H].
Defined.

End ExtractorMore.

Section ExtractorCounts.
Import Py UrlPattern UrlFacts.

Lemma has_type_academic_found (l : list string) :
  has_type "academic" (map spec_classify l) = existsb (contains "arxiv.org") l.
Proof.
  induction l as [|u l IH]; [reflexivity|].
  cbn [map has_type existsb] in *. unfold has_type in IH. rewrite IH. f_equal.
  unfold spec_classify.
  destruct (contains "arxiv.org" u), (contains "wikipedia.org" u),
    (contains "doi.org" u); reflexivity.
Qed.

Lemma spec_classify_not_repository (u : string) :
  spec_classify u <> arxiv_repository.
Proof.
  unfold spec_classify, arxiv_repository.
  destruct (contains "arxiv.org" u), (contains "wikipedia.org" u),
    (contains "doi.org" u); discriminate.
Qed.

(** X5: [extract_sources] returns the empty list exactly when the pattern
    matches nowhere in the text and the lowercased text contains none of
    the six keywords. *)
Theorem extract_sources_empty_iff (text : string) :
  extract_sources text = []
  <-> findall text = []
      /\ mentions ["arxiv"; "paper"; "research"; "study"] text = false
      /\ mentions ["wikipedia"; "wiki"] text = false.
Proof.
  rewrite extract_sources_unfold. cbv zeta.
  unfold academic_entry, encyclopedia_entry. split.
  - intros H. apply app_eq_nil in H as [F H]. apply app_eq_nil in H as [A E].
    apply map_eq_nil in F. rewrite F in *. cbn [map has_type existsb negb] in *.
    rewrite andb_true_r in A.
    destruct (mentions ["arxiv"; "paper"; "research"; "study"] text);
      [discriminate A|].
    cbn [app has_type existsb negb] in E. rewrite andb_true_r in E.
    destruct (mentions ["wikipedia"; "wiki"] text); [discriminate E|].
    repeat split.
  - intros (-> & -> & ->). reflexivity.
Qed.

(** X6: the list has one source per match and at most two more. *)
Theorem extract_sources_length (text : string) :
  List.length (findall text) <= List.length (extract_sources text)
  /\ List.length (extract_sources text) <= List.length (findall text) + 2.
Proof.
  rewrite extract_sources_unfold. cbv zeta.
  rewrite !length_app, length_map.
  unfold academic_entry at 1 3, encyclopedia_entry.
  destruct (_ && _); destruct (_ && _); cbn [List.length]; lia.
Qed.

(** X7: a text whose lowercased form contains one of "arxiv", "paper",
    "research", "study" gets at least one source of type academic, and one
    whose lowercased form contains "wikipedia" or "wiki" gets at least one
    source of type encyclopedia. *)
Theorem keyword_gives_typed_source (text : string) :
  (mentions ["arxiv"; "paper"; "research"; "study"] text = true ->
   has_type "academic" (extract_sources text) = true)
  /\ (mentions ["wikipedia"; "wiki"] text = true ->
      has_type "encyclopedia" (extract_sources text) = true).
Proof.
  rewrite extract_sources_unfold. cbv zeta.
  unfold academic_entry, encyclopedia_entry, has_type. split; intros ->.
  - rewrite !existsb_app. cbn [andb].
    destruct (existsb _ (map spec_classify (findall text))); [reflexivity|].
    reflexivity.
  - cbn [andb]. rewrite app_assoc.
    set (before := (map spec_classify (findall text) ++ _)%list).
    rewrite existsb_app.
    destruct (existsb _ before); reflexivity.
Qed.

Lemma keyword_gives_typed_source_witness :
  mentions ["arxiv"; "paper"; "research"; "study"]
    "A new STUDY, see http://example.com" = true
  /\ has_type "academic" (extract_sources "A new STUDY, see http://example.com") = true.
Proof.
  split; [reflexivity|].
  apply (proj1 (keyword_gives_typed_source "A new STUDY, see http://example.com")).
  reflexivity.
Defined.

(** X8: the arXiv Repository entry is in the list exactly when the
    lowercased text contains one of the four academic keywords and no match
    of the pattern contains "arxiv.org". *)
Theorem arxiv_repository_iff (text : string) :
  In arxiv_repository (extract_sources text)
  <-> mentions ["arxiv"; "paper"; "research"; "study"] text = true
      /\ forall u, In u (findall text) -> contains "arxiv.org" u = false.
Proof.
  rewrite extract_sources_unfold. cbv zeta.
  unfold academic_entry at 1. rewrite has_type_academic_found.
  split.
  - intros H. apply in_app_or in H as [H|H].
    { apply in_map_iff in H as (v & H & _).
      destruct (spec_classify_not_repository v H). }
    apply in_app_or in H as [H|H].
    + destruct (mentions _ text); [|destruct H].
      destruct (existsb (contains "arxiv.org") (findall text)) eqn:E; [destruct H|].
      split; [reflexivity|]. intros u I.
      destruct (contains "arxiv.org" u) eqn:C; [|reflexivity].
      rewrite <- E. symmetry. apply existsb_exists. exists u; split; assumption.
    + unfold encyclopedia_entry in H. destruct (_ && _) in H; [|destruct H].
      destruct H as [H|[]]; discriminate H.
  - intros [-> N].
    assert (E : existsb (contains "arxiv.org") (findall text) = false).
    { destruct (existsb _ _) eqn:E; [|reflexivity].
      apply existsb_exists in E as (u & I & C). rewrite (N u I) in C. discriminate. }
    rewrite E. apply in_or_app; right. left; reflexivity.
Qed.

End ExtractorCounts.

(** ** More on the page script *)

Section ScriptMore.

(** With the key, a run is the initialisation followed by the
    interaction. *)
Lemma run_with_key (w : World) (s : session_state) :
  truthy (getenv_GROQ_API_KEY w) = true ->
  run w s
  = match initialize_session w {| session := s; notices := [] |} with
    | (Next _, p) => interaction w p
    | (Rerun, p) => (Rerun, p)
    | (Stop, p) => (Stop, p)
    end.
Proof.
  intros T. unfold run, script, require_api_key. rewrite T. reflexivity.
Qed.

(** The initialisation of a session that has its two keys does nothing. *)
Lemma initialize_session_set (w : World) (l : list Message)
    (ag : option AgentExecutor) (n : list Notice) :
  initialize_session w
    {| session := {| messages := Some l; agent := Some ag |}; notices := n |}
  = (Next tt,
     {| session := {| messages := Some l; agent := Some ag |}; notices := n |}).
Proof. reflexivity. Qed.

(** X9: without the key a run stops at once: the setup notice is shown and
    the session state is left as it was, so no store and no agent are
    created. *)
Theorem missing_key_stops (w : World) (s : session_state) :
  truthy (getenv_GROQ_API_KEY w) = false ->
  run w s = (Stop, {| session := s; notices := [ApiKeyNotFound] |}).
Proof.
  intros T. unfold run, script, require_api_key. rewrite T. reflexivity.
Qed.

Lemma missing_key_stops_witness :
  run {| getenv_GROQ_API_KEY := None; create_agent := inl agent_executor;
         widget := LatestAIResearch;
         agent_invoke := fun _ => AgentRaised; llm_invoke := fun _ => LlmRaised |}
      fresh_session
  = (Stop, {| session := fresh_session; notices := [ApiKeyNotFound] |}).
Proof.
  apply (missing_key_stops
           {| getenv_GROQ_API_KEY := None; create_agent := inl agent_executor;
              widget := LatestAIResearch;
              agent_invoke := fun _ => AgentRaised;
              llm_invoke := fun _ => LlmRaised |} fresh_session).
  reflexivity.
Defined.

(** X10: the first run of a session that finds the key and no widget event
    seeds the store with the greeting and sets the agent to what its
    construction gave: the executor and no notice, or [None] and the error
    notice with the text of the exception; the run goes to its end either
    way. *)
Theorem first_run (w : World) :
  truthy (getenv_GROQ_API_KEY w) = true ->
  widget w = NoWidget ->
  run w fresh_session
  = (Next tt,
     match create_agent w with
     | inl a =>
         {| session := {| messages := Some [greeting]; agent := Some (Some a) |};
            notices := [] |}
     | inr e =>
         {| session := {| messages := Some [greeting]; agent := Some None |};
            notices := [Error ("Error initializing agent: " ++ e)] |}
     end).
Proof.
  intros T W. rewrite (run_with_key _ _ T).
  destruct w as [key create wd ai li]. cbn in W. subst wd.
  unfold initialize_session, initialize_agent. cbn [create_agent].
  destruct create; reflexivity.
Qed.

Lemma first_run_witness :
  run {| getenv_GROQ_API_KEY := Some "gsk"; create_agent := inr "timeout";
         widget := NoWidget;
         agent_invoke := fun _ => AgentRaised; llm_invoke := fun _ => LlmRaised |}
      fresh_session
  = (Next tt,
     {| session := {| messages := Some [greeting]; agent := Some None |};
        notices := [Error "Error initializing agent: timeout"] |}).
Proof.
  apply (first_run
           {| getenv_GROQ_API_KEY := Some "gsk"; create_agent := inr "timeout";
              widget := NoWidget;
              agent_invoke := fun _ => AgentRaised;
              llm_invoke := fun _ => LlmRaised |});
    reflexivity.
Defined.

Lemma agent_kept_interaction (w : World) (x : option AgentExecutor) :
  preserves (fun s => agent s = Some x) (interaction w).
Proof.
  unfold interaction, quick_actions, handle_chat_input, process_latest,
    quick_action, messages_append.
  repeat first
    [ apply preserves_get_state
    | apply preserves_get_messages
    | apply preserves_get_agent
    | apply preserves_show
    | apply preserves_rerun
    | apply preserves_stop
    | apply preserves_ret
    | apply preserves_when
    | apply preserves_bind
    | match goal with |- forall _, preserves _ _ => intro end
    | match goal with |- preserves _ (match ?y with _ => _ end) => destruct y end
    | match goal with |- preserves _ (set_messages _) => intros p H; exact H end ].
Qed.

(** X11: the agent is set once per session: a run never changes the key
    ["agent"] once it is there, so a construction that failed is never
    tried again and the session stays without agent. *)
Theorem agent_set_once (w : World) (s : session_state) (x : option AgentExecutor) :
  agent s = Some x -> agent (after w s) = Some x.
Proof.
  intros A. unfold after.
  destruct (truthy (getenv_GROQ_API_KEY w)) eqn:T.
  - rewrite (run_with_key _ _ T).
    destruct s as [[l|] ag]; cbn in A; subst ag.
    + rewrite initialize_session_set. apply agent_kept_interaction. reflexivity.
    + change (initialize_session w _)
        with (Next tt, {| session := {| messages := Some [greeting]; agent := Some x |};
                          notices := [] |}).
      apply agent_kept_interaction. reflexivity.
  - rewrite (missing_key_stops _ _ T). exact A.
Qed.

Lemma agent_set_once_witness :
  agent (after (sample_world LatestAIResearch)
           {| messages := Some [greeting]; agent := Some None |})
  = Some None.
Proof.
  apply (agent_set_once (sample_world LatestAIResearch)
           {| messages := Some [greeting]; agent := Some None |} None).
  reflexivity.
Defined.

End ScriptMore.

Section Processing.

Lemma interaction_no_widget (w : World) (p : Page) :
  widget w = NoWidget -> interaction w p = process_latest w p.
Proof.
  intros W. destruct w as [key create wd ai li]. cbn in W. subst wd. reflexivity.
Qed.

(** What the processing block does for a pending message, per outcome of
    the two outside calls. *)
Lemma process_pending (w : World) (l : list Message) (m : Message)
    (a : AgentExecutor) (n : list Notice) :
  last_message l = Some m ->
  role m = "user" ->
  process_latest w
    {| session := {| messages := Some l; agent := Some (Some a) |}; notices := n |}
  = match agent_invoke w (content m) with
    | Response response =>
        let output := match response with Some o => o | None => default_output end in
        (Next tt,
         {| session :=
              {| messages :=
                   Some (l ++ [{| role := "assistant"; content := output;
                                  sources := Some (extract_sources output) |}]);
                 agent := Some (Some a) |};
            notices := n |})
    | AgentRaised =>
        let shown :=
          (n ++ [Warning "Search tools are temporarily unavailable. Providing direct AI response..."])%list in
        match llm_invoke w (content m) with
        | Reply fallback_content =>
            (Next tt,
             {| session :=
                  {| messages :=
                       Some (l ++ [{| role := "assistant"; content := fallback_content;
                                      sources := Some (extract_sources fallback_content) |}]);
                     agent := Some (Some a) |};
                notices := shown |})
        | LlmRaised =>
            (Next tt,
             {| session :=
                  {| messages := Some (l ++ [apology]); agent := Some (Some a) |};
                notices := shown |})
        end
    end%list.
Proof.
  intros L R. unfold process_latest.
  unfold bind at 1. cbn [get_messages get_state bind ret session messages].
  unfold bind at 1. cbn [get_agent get_state bind ret session agent].
  rewrite L, R. cbn [String.eqb is_some andb when].
  change ("user" =? "user") with true. cbn [andb when].
  destruct (agent_invoke w (content m)) as [response|]; [reflexivity|].
  unfold bind at 1. cbn [st_warning show session notices].
  destruct (llm_invoke w (content m)); reflexivity.
Qed.

Lemma last_message_app (l : list Message) (m : Message) :
  last_message (l ++ [m]) = Some m.
Proof.
  unfold last_message. rewrite map_app. cbn [map]. apply last_last.
Qed.

(** A run without widget event finds nothing to do when the last message
    is not a pending user message, or when the agent is [None]. *)
Lemma process_idle (w : World) (l : list Message) (ag : option AgentExecutor)
    (n : list Notice) :
  (forall m, last_message l = Some m -> role m = "user" -> ag = None) ->
  process_latest w
    {| session := {| messages := Some l; agent := Some ag |}; notices := n |}
  = (Next tt,
     {| session := {| messages := Some l; agent := Some ag |}; notices := n |}).
Proof.
  intros H. unfold process_latest.
  unfold bind at 1. cbn [get_messages get_state bind ret session messages].
  unfold bind at 1. cbn [get_agent get_state bind ret session agent].
  destruct (last_message l) as [m|]; [|reflexivity].
  destruct (String.eqb_spec (role m) "user") as [E|]; [|reflexivity].
  rewrite (H m eq_refl E). reflexivity.
Qed.

(** X12: when the agent answers a pending user message, the run appends
    one assistant message whose content is the ["output"] of the response,
    or the fixed default text when the response has no such key, and whose
    sources are [extract_sources] of that content; no notice is shown. *)
Theorem agent_answer_recorded
    (w : World) (s : session_state) (l : list Message) (m : Message)
    (a : AgentExecutor) (response : option string) :
  truthy (getenv_GROQ_API_KEY w) = true ->
  widget w = NoWidget ->
  messages s = Some l ->
  agent s = Some (Some a) ->
  last_message l = Some m ->
  role m = "user" ->
  agent_invoke w (content m) = Response response ->
  let output :=
    match response with
    | Some o => o
    | None => "I apologize, but I couldn't generate a proper response."
    end in
  run w s
  = (Next tt,
     {| session :=
          {| messages :=
               Some (l ++ [{| role := "assistant"; content := output;
                              sources := Some (extract_sources output) |}])%list;
             agent := Some (Some a) |};
        notices := [] |}).
Proof.
  intros T W M A L R AI. destruct s as [ms ag]. cbn in M, A. subst ms ag.
  rewrite (run_with_key _ _ T), initialize_session_set,
    (interaction_no_widget _ _ W), (process_pending _ _ _ _ _ L R), AI.
  reflexivity.
Qed.

Lemma agent_answer_recorded_witness :
  let l := [greeting; user_message_of "Any news?"] in
  run (sample_world NoWidget)
      {| messages := Some l; agent := Some (Some agent_executor) |}
  = (Next tt,
     {| session :=
          {| messages :=
               Some (l ++ [{| role := "assistant";
                              content := "See https://arxiv.org/abs/1 and Wikipedia.";
                              sources :=
                                Some (extract_sources
                                        "See https://arxiv.org/abs/1 and Wikipedia.") |}])%list;
             agent := Some (Some agent_executor) |};
        notices := [] |}).
Proof.
  intros l.
  apply (agent_answer_recorded (sample_world NoWidget)
           {| messages := Some l; agent := Some (Some agent_executor) |}
           l (user_message_of "Any news?") agent_executor
           (Some "See https://arxiv.org/abs/1 and Wikipedia."));
    reflexivity.
Defined.

(** X13: when the agent raises on a pending user message and the direct
    call of the model answers, the run shows the warning and appends one
    assistant message whose content is the model's reply and whose sources
    are [extract_sources] of that reply; nothing of the failed attempt is
    in the store. *)
Theorem fallback_answer_recorded
    (w : World) (s : session_state) (l : list Message) (m : Message)
    (a : AgentExecutor) (fallback_content : string) :
  truthy (getenv_GROQ_API_KEY w) = true ->
  widget w = NoWidget ->
  messages s = Some l ->
  agent s = Some (Some a) ->
  last_message l = Some m ->
  role m = "user" ->
  agent_invoke w (content m) = AgentRaised ->
  llm_invoke w (content m) = Reply fallback_content ->
  run w s
  = (Next tt,
     {| session :=
          {| messages :=
               Some (l ++ [{| role := "assistant"; content := fallback_content;
                              sources := Some (extract_sources fallback_content) |}])%list;
             agent := Some (Some a) |};
        notices :=
          [Warning "Search tools are temporarily unavailable. Providing direct AI response..."] |}).
Proof.
  intros T W M A L R AI LI. destruct s as [ms ag]. cbn in M, A. subst ms ag.
  rewrite (run_with_key _ _ T), initialize_session_set,
    (interaction_no_widget _ _ W), (process_pending _ _ _ _ _ L R), AI, LI.
  reflexivity.
Qed.

Lemma fallback_answer_recorded_witness :
  let w := {| getenv_GROQ_API_KEY := Some "gsk";
              create_agent := inl agent_executor;
              widget := NoWidget;
              agent_invoke := fun _ => AgentRaised;
              llm_invoke := fun q => Reply ("A study on " ++ q) |} in
  let l := [greeting; user_message_of "wikis"] in
  run w {| messages := Some l; agent := Some (Some agent_executor) |}
  = (Next tt,
     {| session :=
          {| messages :=
               Some (l ++ [{| role := "assistant"; content := "A study on wikis";
                              sources := Some (extract_sources "A study on wikis") |}])%list;
             agent := Some (Some agent_executor) |};
        notices :=
          [Warning "Search tools are temporarily unavailable. Providing direct AI response..."] |}).
Proof.
  intros w l.
  apply (fallback_answer_recorded w
           {| messages := Some l; agent := Some (Some agent_executor) |}
           l (user_message_of "wikis") agent_executor "A study on wikis");
    reflexivity.
Defined.

(** X14: a run without widget event changes nothing and shows nothing when
    the store does not end with a user message, and also when it does but
    the agent is [None]: such a message is never answered. *)
Theorem idle_run (w : World) (l : list Message) (ag : option AgentExecutor) :
  truthy (getenv_GROQ_API_KEY w) = true ->
  widget w = NoWidget ->
  (forall m, last_message l = Some m -> role m = "user" -> ag = None) ->
  run w {| messages := Some l; agent := Some ag |}
  = (Next tt,
     {| session := {| messages := Some l; agent := Some ag |}; notices := [] |}).
Proof.
  intros T W H.
  rewrite (run_with_key _ _ T), initialize_session_set,
    (interaction_no_widget _ _ W).
  apply process_idle. exact H.
Qed.

Lemma idle_run_witness :
  let l := [greeting; user_message_of "Any news?"] in
  run (sample_world NoWidget) {| messages := Some l; agent := Some None |}
  = (Next tt,
     {| session := {| messages := Some l; agent := Some None |}; notices := [] |}).
Proof.
  intros l.
  apply (idle_run (sample_world NoWidget) l None); reflexivity.
Defined.

(** X15: a pending user message is answered once: the run that processes
    it appends exactly one message, of role assistant, whatever the two
    outside calls do, and a further run without widget event leaves the
    session as it is. *)
Theorem answered_once
    (w w' : World) (s : session_state) (l : list Message) (m : Message)
    (a : AgentExecutor) :
  truthy (getenv_GROQ_API_KEY w) = true ->
  widget w = NoWidget ->
  truthy (getenv_GROQ_API_KEY w') = true ->
  widget w' = NoWidget ->
  messages s = Some l ->
  agent s = Some (Some a) ->
  last_message l = Some m ->
  role m = "user" ->
  (exists reply,
     messages (after w s) = Some (l ++ [reply])%list /\ role reply = "assistant")
  /\ agent (after w s) = Some (Some a)
  /\ after w' (after w s) = after w s.
Proof.
  intros T W T' W' M A L R. destruct s as [ms ag]. cbn in M, A. subst ms ag.
  assert (E : exists reply,
             role reply = "assistant"
             /\ after w {| messages := Some l; agent := Some (Some a) |}
                = {| messages := Some (l ++ [reply])%list; agent := Some (Some a) |}).
  { unfold after.
    rewrite (run_with_key _ _ T), initialize_session_set,
      (interaction_no_widget _ _ W), (process_pending _ _ _ _ _ L R).
    destruct (agent_invoke w (content m)) as [response|];
      [|destruct (llm_invoke w (content m))];
      eexists; (split; [|reflexivity]); reflexivity. }
  destruct E as (reply & Rr & ->). cbn [messages agent].
  split; [exists reply; split; [reflexivity | exact Rr]|].
  split; [reflexivity|].
  unfold after at 1. rewrite idle_run; [reflexivity | exact T' | exact W' |].
  intros x Lx Rx. rewrite last_message_app in Lx. injection Lx as <-.
  rewrite Rr in Rx. discriminate Rx.
Qed.

Lemma answered_once_witness :
  let s := {| messages := Some [greeting; user_message_of "Any news?"];
              agent := Some (Some agent_executor) |} in
  (exists reply,
     messages (after (sample_world NoWidget) s)
     = Some ([greeting; user_message_of "Any news?"] ++ [reply])%list
     /\ role reply = "assistant")
  /\ agent (after (sample_world NoWidget) s) = Some (Some agent_executor)
  /\ after (sample_world NoWidget) (after (sample_world NoWidget) s)
     = after (sample_world NoWidget) s.
Proof.
  intros s.
  apply (answered_once (sample_world NoWidget) (sample_world NoWidget) s
           [greeting; user_message_of "Any news?"]
           (user_message_of "Any news?") agent_executor);
    reflexivity.
Defined.

(** X16: with the agent there, a prompt typed in the chat input is
    appended to the store as a user message and the script reruns at once:
    the agent is not called in that run and nothing is shown. *)
Theorem chat_input_accepted
    (w : World) (l : list Message) (a : AgentExecutor) (c : ascii) (prompt : string) :
  truthy (getenv_GROQ_API_KEY w) = true ->
  widget w = ChatInput (String c prompt) ->
  run w {| messages := Some l; agent := Some (Some a) |}
  = (Rerun,
     {| session :=
          {| messages := Some (l ++ [user_message_of (String c prompt)])%list;
             agent := Some (Some a) |};
        notices := [] |}).
Proof.
  intros T W. rewrite (run_with_key _ _ T), initialize_session_set.
  destruct w as [key create wd ai li]. cbn in W. subst wd. reflexivity.
Qed.

Lemma chat_input_accepted_witness :
  run (sample_world (ChatInput "What is Rocq?"))
      {| messages := Some [greeting]; agent := Some (Some agent_executor) |}
  = (Rerun,
     {| session :=
          {| messages := Some ([greeting] ++ [user_message_of "What is Rocq?"])%list;
             agent := Some (Some agent_executor) |};
        notices := [] |}).
Proof.
  apply (chat_input_accepted (sample_world (ChatInput "What is Rocq?"))
           [greeting] agent_executor "W" "hat is Rocq?");
    reflexivity.
Defined.

End Processing.

(** ** Invariants of the store, and its display *)

Section StoreMore.

Variable Q : Message -> Prop.
Hypothesis Q_greeting : Q greeting.
Hypothesis Q_cleared : Q cleared_greeting.
Hypothesis Q_user : forall text, Q (user_message_of text).
Hypothesis Q_extracted :
  forall text,
    Q {| role := "assistant"; content := text;
         sources := Some (extract_sources text) |}.
Hypothesis Q_apology : Q apology.

Lemma all_messages_append (m : Message) :
  Q m -> preserves (all_messages Q) (messages_append m).
Proof.
  intros Hm p H. unfold all_messages in *. cbn.
  destruct (messages (session p)) as [l|].
  - apply Forall_app; split; [exact H | constructor; [exact Hm | constructor]].
  - constructor; [exact Hm | constructor].
Qed.

Lemma all_messages_set (l : list Message) :
  Forall Q l -> preserves (all_messages Q) (set_messages l).
Proof. intros H p _. exact H. Qed.

(** A property that holds of every message the script can build holds of
    every message of the store after a run. *)
Lemma all_messages_script (w : World) : preserves (all_messages Q) (script w).
Proof.
  unfold script, require_api_key, initialize_session, quick_actions,
    handle_chat_input, process_latest, quick_action, initialize_agent.
  repeat first
    [ apply all_messages_append; solve [auto]
    | apply all_messages_set; solve [auto]
    | apply preserves_get_state
    | apply preserves_get_messages
    | apply preserves_get_agent
    | apply preserves_show
    | apply preserves_rerun
    | apply preserves_stop
    | apply preserves_ret
    | apply preserves_when
    | apply preserves_bind
    | match goal with |- forall _, preserves _ _ => intro end
    | match goal with |- preserves _ (match ?y with _ => _ end) => destruct y end
    | match goal with |- preserves _ (set_agent _) => intros p H; exact H end ].
Qed.

Lemma all_messages_reachable (s : session_state) :
  reachable s -> all_messages Q s.
Proof.
  induction 1 as [|w s _ IH]; [exact I|].
  unfold after, run. apply all_messages_script. exact IH.
Qed.

End StoreMore.

Section StoreInvariants.
Import Py UrlPattern UrlFacts.

(** X17: in every session the script can bring about, each message of the
    store is either a user message without the key ["sources"] or an
    assistant message with it; no other role occurs. *)
Theorem messages_well_formed (s : session_state) (l : list Message) (m : Message) :
  reachable s ->
  messages s = Some l ->
  In m l ->
  (role m = "user" /\ sources m = None)
  \/ (role m = "assistant" /\ exists srcs, sources m = Some srcs).
Proof.
  intros R E I.
  assert (H : all_messages well_formed s).
  { apply all_messages_reachable; try exact R; unfold well_formed; cbn;
      try intros ?; eauto. }
  unfold all_messages in H. rewrite E in H.
  exact (proj1 (Forall_forall _ _) H m I).
Qed.

Lemma messages_well_formed_witness :
  let s := after (sample_world NoWidget)
             (after (sample_world WebSearch)
                (after (sample_world NoWidget) fresh_session)) in
  reachable s
  /\ (exists l, messages s = Some l
                /\ In (user_message_of "Search the web for recent developments in machine learning") l)
  /\ role (user_message_of "Search the web for recent developments in machine learning") = "user".
Proof.
  intros s. split; [repeat constructor|].
  split; [eexists; split; [reflexivity | right; left; reflexivity]|].
  destruct (messages_well_formed s
              [greeting;
               user_message_of "Search the web for recent developments in machine learning";
               {| role := "assistant";
                  content := "See https://arxiv.org/abs/1 and Wikipedia.";
                  sources := Some (extract_sources "See https://arxiv.org/abs/1 and Wikipedia.") |}]
              (user_message_of "Search the web for recent developments in machine learning"))
    as [[H _]|[H _]]; [repeat constructor | reflexivity | right; left; reflexivity | exact H | discriminate H].
Defined.

Lemma opens_interaction (w : World) :
  preserves opens_with_greeting (interaction w).
Proof.
  assert (A : forall m, preserves opens_with_greeting (messages_append m)).
  { intros m p [rest [H|H]]; exists (rest ++ [m])%list; cbn; rewrite H;
      [left | right]; reflexivity. }
  unfold interaction, quick_actions, handle_chat_input, process_latest,
    quick_action.
  repeat first
    [ apply A
    | match goal with |- preserves _ (set_messages [cleared_greeting]) =>
        intros p _; exists []; right; reflexivity end
    | apply preserves_get_state
    | apply preserves_get_messages
    | apply preserves_get_agent
    | apply preserves_show
    | apply preserves_rerun
    | apply preserves_stop
    | apply preserves_ret
    | apply preserves_when
    | apply preserves_bind
    | match goal with |- forall _, preserves _ _ => intro end
    | match goal with |- preserves _ (match ?y with _ => _ end) => destruct y end ].
Qed.

Lemma opens_after (w : World) (s : session_state) :
  messages s = None \/ opens_with_greeting s ->
  messages (after w s) = None \/ opens_with_greeting (after w s).
Proof.
  intros H. unfold after.
  destruct (truthy (getenv_GROQ_API_KEY w)) eqn:T.
  - right. rewrite (run_with_key _ _ T).
    assert (I : exists p, initialize_session w {| session := s; notices := [] |}
                          = (Next tt, p) /\ opens_with_greeting (session p)).
    { unfold initialize_session, initialize_agent.
      destruct H as [H|[rest H]]; destruct s as [ms [ag|]]; cbn in H.
      - subst ms. eexists; split; [reflexivity|]. exists []; left; reflexivity.
      - subst ms. destruct (create_agent w); eexists;
          (split; [reflexivity|]); exists []; left; reflexivity.
      - destruct H as [-> | ->]; eexists; (split; [reflexivity|]);
          exists rest; [left | right]; reflexivity.
      - destruct H as [-> | ->]; destruct (create_agent w); eexists;
          (split; [reflexivity|]); exists rest;
          first [left; reflexivity | right; reflexivity]. }
    destruct I as (p & -> & I). apply opens_interaction. exact I.
  - rewrite (missing_key_stops _ _ T). exact H.
Qed.

(** X18: in every session the script can bring about, the store opens with
    the greeting or with the greeting of a cleared chat: the first message
    is never a user message and never an answer of the agent. *)
Theorem store_opens_with_greeting (s : session_state) (l : list Message) :
  reachable s ->
  messages s = Some l ->
  exists rest, l = greeting :: rest \/ l = cleared_greeting :: rest.
Proof.
  intros R E.
  assert (H : messages s = None \/ opens_with_greeting s).
  { clear E. induction R as [|w s _ IH]; [left; reflexivity|].
    exact (opens_after w s IH). }
  destruct H as [H|[rest H]]; [congruence|].
  exists rest. rewrite E in H. destruct H as [H|H]; injection H as ->; auto.
Qed.

Lemma store_opens_with_greeting_witness :
  let s := after (sample_world NoWidget)
             (after (sample_world ClearChat)
                (after (sample_world NoWidget) fresh_session)) in
  reachable s
  /\ messages s = Some [cleared_greeting]
  /\ exists rest,
       [cleared_greeting] = greeting :: rest
       \/ [cleared_greeting] = cleared_greeting :: rest.
Proof.
  intros s. split; [repeat constructor|]. split; [reflexivity|].
  apply (store_opens_with_greeting s [cleared_greeting]);
    [repeat constructor | reflexivity].
Defined.

Lemma extracted_url_truthy (text : string) (source : Source) :
  In source (extract_sources text) -> truthy (url source) = true.
Proof.
  rewrite extract_sources_unfold. cbv zeta. intros H.
  apply in_app_or in H as [H|H]; [|apply in_app_or in H as [H|H]].
  - apply in_map_iff in H as (u & <- & I).
    destruct (spec_classify_cases u) as (-> & _).
    pose proof (findall_http _ _ I) as P. destruct u; [discriminate P | reflexivity].
  - unfold academic_entry in H. destruct (_ && _) in H; [|destruct H].
    destruct H as [<-|[]]. reflexivity.
  - unfold encyclopedia_entry in H. destruct (_ && _) in H; [|destruct H].
    destruct H as [<-|[]]. reflexivity.
Qed.

(** X19: in every session the script can bring about, the display of the
    store never takes the plain-label branch: every source shown is a
    link, whose target is the url of the source. *)
Theorem display_has_no_label (s : session_state) (e : Element) :
  reachable s ->
  In e (display_messages (store s)) ->
  forall label, e <> SourceLabel label.
Proof.
  intros R I label ->.
  assert (H : all_messages sources_linked s).
  { apply all_messages_reachable; try exact R; unfold sources_linked;
      cbn; try intros ?; try contradiction.
    intros source. apply extracted_url_truthy. }
  unfold all_messages, store in *.
  destruct (messages s) as [l|]; [|destruct I].
  unfold display_messages in I. apply in_flat_map in I as (m & Im & I).
  pose proof (proj1 (Forall_forall _ _) H m Im) as L. unfold sources_linked in L.
  unfold display_message in I.
  destruct (role m =? "user"); [destruct I as [I|[]]; discriminate I|].
  destruct I as [I|I]; [discriminate I|].
  destruct (shown_sources m) as [|x l'] eqn:S; [destruct I|].
  destruct I as [I|[I|I]]; try discriminate I.
  apply in_app_or in I as [I|[I|[]]]; [|discriminate I].
  apply in_map_iff in I as (source & D & Is).
  unfold display_source in D. rewrite (L source Is) in D. discriminate D.
Qed.

Lemma display_has_no_label_witness :
  let s := after (sample_world NoWidget)
             (after (sample_world WebSearch)
                (after (sample_world NoWidget) fresh_session)) in
  reachable s
  /\ In (SourceLink "https://wikipedia.org" "Wikipedia") (display_messages (store s))
  /\ forall label, SourceLink "https://wikipedia.org" "Wikipedia" <> SourceLabel label.
Proof.
  intros s. split; [repeat constructor|].
  assert (I : In (SourceLink "https://wikipedia.org" "Wikipedia")
                (display_messages (store s))).
  { vm_compute. do 6 right. left. reflexivity. }
  split; [exact I|].
  apply (display_has_no_label s _ ltac:(repeat constructor) I).
Defined.

(** X20: the display shows one bubble per message, in the order of the
    store, with the content of the message as its text. *)
Theorem display_bubbles (l : list Message) :
  bubbles (display_messages l) = map content l.
Proof.
  assert (B : forall a b, bubbles (a ++ b) = (bubbles a ++ bubbles b)%list).
  { intros a b. induction a as [|e a IH]; [reflexivity|].
    cbn [app bubbles]. destruct (bubble_text e); cbn [app]; congruence. }
  assert (N : forall l : list Source, bubbles (map display_source l) = []).
  { intros x. induction x as [|src x IH]; [reflexivity|].
    cbn [map bubbles]. unfold display_source at 1.
    destruct (truthy (url src)); exact IH. }
  unfold display_messages.
  induction l as [|m l IH]; [reflexivity|].
  cbn [flat_map map]. rewrite B, IH.
  change (content m :: map content l) with ([content m] ++ map content l)%list.
  f_equal.
  unfold display_message. destruct (role m =? "user"); [reflexivity|].
  cbn [bubbles bubble_text]. f_equal.
  destruct (shown_sources m) as [|x r]; [reflexivity|].
  cbn [bubbles bubble_text]. rewrite B, N. reflexivity.
Qed.

End StoreInvariants.

Section StoreGrowth.

Lemma process_grows (w : World) (l : list Message) (ag : option AgentExecutor)
    (n : list Notice) :
  exists l',
    messages (session (snd (process_latest w
       {| session := {| messages := Some l; agent := Some ag |}; notices := n |})))
    = Some (l ++ l')%list
    /\ List.length l' <= 1.
Proof.
  destruct (last_message l) as [m|] eqn:L.
  - destruct (String.eqb_spec (role m) "user") as [R|R].
    + destruct ag as [a|].
      * rewrite (process_pending _ _ _ _ _ L R).
        destruct (agent_invoke w (content m)) as [response|];
          [|destruct (llm_invoke w (content m))];
          eexists [_]; (split; [reflexivity | apply Nat.le_refl]).
      * rewrite process_idle by reflexivity.
        exists []; split; [cbn; rewrite app_nil_r; reflexivity | apply Nat.le_0_l].
    + rewrite process_idle by (intros x Lx Rx; congruence).
      exists []; split; [cbn; rewrite app_nil_r; reflexivity | apply Nat.le_0_l].
  - rewrite process_idle by (intros x Lx Rx; congruence).
    exists []; split; [cbn; rewrite app_nil_r; reflexivity | apply Nat.le_0_l].
Qed.

Lemma interaction_grows (w : World) (l : list Message) (ag : option AgentExecutor)
    (n : list Notice) :
  widget w <> ClearChat ->
  exists l',
    messages (session (snd (interaction w
       {| session := {| messages := Some l; agent := Some ag |}; notices := n |})))
    = Some (l ++ l')%list
    /\ List.length l' <= 1.
Proof.
  intros W. destruct w as [key create wd ai li]. cbn in W.
  destruct wd as [| | | | |prompt]; try congruence.
  - apply process_grows.
  - eexists [_]; split; [reflexivity | apply Nat.le_refl].
  - eexists [_]; split; [reflexivity | apply Nat.le_refl].
  - eexists [_]; split; [reflexivity | apply Nat.le_refl].
  - destruct prompt as [|c prompt]; [apply process_grows|].
    destruct ag as [a|].
    + eexists [_]; split; [reflexivity | apply Nat.le_refl].
    + exists []; split; [cbn; rewrite app_nil_r; reflexivity | apply Nat.le_0_l].
Qed.

(** X21: unless the Clear Chat button is clicked, a run keeps every message
    of the store as it is and in place, and appends at most one message. *)
Theorem store_grows (w : World) (s : session_state) (l : list Message) :
  messages s = Some l ->
  widget w <> ClearChat ->
  exists l',
    messages (after w s) = Some (l ++ l')%list /\ List.length l' <= 1.
Proof.
  intros M W. unfold after.
  destruct (truthy (getenv_GROQ_API_KEY w)) eqn:T.
  - rewrite (run_with_key _ _ T). destruct s as [ms [ag|]]; cbn in M; subst ms.
    + rewrite initialize_session_set. apply interaction_grows, W.
    + unfold initialize_session, initialize_agent.
      destruct (create_agent w); cbn -[interaction]; apply interaction_grows, W.
  - rewrite (missing_key_stops _ _ T). cbn.
    exists []; split; [rewrite M, app_nil_r; reflexivity | apply Nat.le_0_l].
Qed.

Lemma store_grows_witness :
  let l := [greeting; user_message_of "Any news?"] in
  exists l',
    messages (after (sample_world NoWidget)
                {| messages := Some l; agent := Some (Some agent_executor) |})
    = Some (l ++ l')%list
    /\ List.length l' <= 1.
Proof.
  intros l.
  apply (store_grows (sample_world NoWidget)
           {| messages := Some l; agent := Some (Some agent_executor) |} l);
    [reflexivity | discriminate].
Defined.

(** X22: a session whose agent is [None] never calls the agent or the
    model: the outcome of a run is the same whatever the two calls would
    do. *)
Theorem null_agent_never_calls
    (key : option string) (create : AgentExecutor + string) (x : Widget)
    (ai ai' : string -> AgentResult) (li li' : string -> LlmResult)
    (ms : option (list Message)) :
  run {| getenv_GROQ_API_KEY := key; create_agent := create; widget := x;
         agent_invoke := ai; llm_invoke := li |}
      {| messages := ms; agent := Some None |}
  = run {| getenv_GROQ_API_KEY := key; create_agent := create; widget := x;
           agent_invoke := ai'; llm_invoke := li' |}
        {| messages := ms; agent := Some None |}.
Proof.
  destruct (truthy key) eqn:T.
  - rewrite !run_with_key by exact T.
    assert (I : forall w, initialize_session w
                  {| session := {| messages := ms; agent := Some None |}; notices := [] |}
                = (Next tt,
                   {| session :=
                        {| messages := Some (match ms with Some l => l | None => [greeting] end);
                           agent := Some None |};
                      notices := [] |})).
    { intros w. destruct ms; reflexivity. }
    rewrite !I.
    destruct x as [| | | | |prompt]; try reflexivity.
    + rewrite !interaction_no_widget by reflexivity.
      rewrite !process_idle by reflexivity. reflexivity.
    + destruct prompt as [|c prompt]; [|reflexivity].
      change (interaction ?w ?p) with (process_latest w p).
      rewrite !process_idle by reflexivity. reflexivity.
  - rewrite !missing_key_stops by exact T. reflexivity.
Qed.

End StoreGrowth.

Section ExtractorWitnesses.
Import Py UrlPattern.

Lemma extract_sources_empty_iff_witness :
  findall "Hello, how are you?" = []
  /\ mentions ["arxiv"; "paper"; "research"; "study"] "Hello, how are you?" = false
  /\ mentions ["wikipedia"; "wiki"] "Hello, how are you?" = false
  /\ extract_sources "Hello, how are you?" = [].
Proof.
  split; [reflexivity|]. split; [reflexivity|]. split; [reflexivity|].
  apply (proj2 (extract_sources_empty_iff "Hello, how are you?")).
  split; [reflexivity|]. split; reflexivity.
Defined.

Lemma arxiv_repository_iff_witness :
  mentions ["arxiv"; "paper"; "research"; "study"]
    "The paper is at https://doi.org/10.1000/182" = true
  /\ In arxiv_repository (extract_sources "The paper is at https://doi.org/10.1000/182").
Proof.
  split; [reflexivity|].
  apply (proj2 (arxiv_repository_iff "The paper is at https://doi.org/10.1000/182")).
  split; [reflexivity|].
  intros u [<-|[]]. reflexivity.
Defined.

End ExtractorWitnesses.
